(** * Verification of the migration pipeline's extraction and recovery layer

    Shallow embedding of the Python services under [backend/services] and of
    [sharedflows/shared-flow-services.py], with the properties stated by the
    specification proved (or refuted) on the embedding.

    Conventions of the embedding.
    - A Python [str] is a Rocq [string], one character per code point; code
      points above U+00FF are outside the model (the text decoded from an
      archive, which may hold any code point, is a list of code points
      instead, see [ApigeeAnalyzer]).
    - A Python exception is a value of [exn]; a call that may raise returns
      [result].
    - A Python [dict] is an association list in insertion order with unique
      keys, updated by [dict_set].
    - Values produced by [json.loads] and [yaml.safe_load] are of type
      [value]; floats are IEEE binary64 numbers ([spec_float] of the Standard
      Library).
    - [json.loads], [yaml.safe_load] and [yaml.dump] are parameters of the
      services that call them; [Json.loads] is the scanner of CPython on the
      strings of the model and instantiates [json.loads] in the examples. *)

From Stdlib Require Import List String Ascii ZArith Lia Bool Arith.
From Stdlib Require Import Floats.SpecFloat.
From Stdlib Require Import DecimalString.
Import ListNotations.

Local Open Scope list_scope.
Local Open Scope string_scope.

(* ================================================================== *)
(** * Python built-ins used by the services *)
(* ================================================================== *)

Module Py.

Inductive exn : Set :=
| KeyError | ValueError | IndexError | TypeError | AttributeError
| ZeroDivisionError | OverflowError | RuntimeError | BadZipFile
| OtherError (class_name : string).

(** [e.__class__.__name__] *)
Definition exn_name (e : exn) : string :=
  match e with
  | KeyError => "KeyError"
  | ValueError => "ValueError"
  | IndexError => "IndexError"
  | TypeError => "TypeError"
  | AttributeError => "AttributeError"
  | ZeroDivisionError => "ZeroDivisionError"
  | OverflowError => "OverflowError"
  | RuntimeError => "RuntimeError"
  | BadZipFile => "BadZipFile"
  | OtherError n => n
  end.

Inductive result (A : Type) : Type :=
| Ok (a : A)
| Raise (e : exn).
Arguments Ok {A} a.
Arguments Raise {A} e.

Definition bind {A B} (r : result A) (f : A -> result B) : result B :=
  match r with
  | Ok a => f a
  | Raise e => Raise e
  end.

Definition code (c : ascii) : N := N_of_ascii c.

Definition in_range (lo hi : N) (c : ascii) : bool :=
  (N.leb lo (code c) && N.leb (code c) hi)%bool.

(** [str.isspace] on one character, which is also the class [\s] of [re] on
    [str] patterns: U+0009..U+000D, U+001C..U+0020, U+0085, U+00A0. *)
Definition isspace (c : ascii) : bool :=
  (in_range 9 13 c || in_range 28 32 c || N.eqb (code c) 133
   || N.eqb (code c) 160)%bool.

Definition isdigit (c : ascii) : bool := in_range 48 57 c.
Definition isupper_ascii (c : ascii) : bool := in_range 65 90 c.
Definition islower_ascii (c : ascii) : bool := in_range 97 122 c.

(** The class [\w] of [re] on [str] patterns: [str.isalnum] or an
    underscore.  Below U+0100 the alphanumeric characters are the ASCII
    letters and digits, the letters U+00AA, U+00B5, U+00BA, U+00C0..U+00D6,
    U+00D8..U+00F6, U+00F8..U+00FF, and the numerics U+00B2, U+00B3, U+00B9,
    U+00BC..U+00BE. *)
Definition isword (c : ascii) : bool :=
  (isdigit c || isupper_ascii c || islower_ascii c || N.eqb (code c) 95
   || N.eqb (code c) 170 || N.eqb (code c) 181 || N.eqb (code c) 186
   || in_range 192 214 c || in_range 216 246 c || in_range 248 255 c
   || N.eqb (code c) 178 || N.eqb (code c) 179 || N.eqb (code c) 185
   || in_range 188 190 c)%bool.

(** [str.lower] on one character (below U+0100: the ASCII capitals and
    U+00C0..U+00DE except the multiplication sign U+00D7). *)
Definition lower_char (c : ascii) : ascii :=
  if (isupper_ascii c
      || (in_range 192 222 c && negb (N.eqb (code c) 215)))%bool
  then ascii_of_N (code c + 32) else c.

Fixpoint lower (s : string) : string :=
  match s with
  | EmptyString => EmptyString
  | String c s' => String (lower_char c) (lower s')
  end.

Definition nl : ascii := ascii_of_N 10.
Definition cr : ascii := ascii_of_N 13.

(** [s\[i:j\]] for [0 <= i <= j]. *)
Definition slice (i j : nat) (s : string) : string := substring i (j - i) s.

(** [s\[:n\]]. *)
Fixpoint take (n : nat) (s : string) : string :=
  match n, s with
  | S n', String c s' => String c (take n' s')
  | _, _ => EmptyString
  end.

Fixpoint lstrip (s : string) : string :=
  match s with
  | String c s' => if isspace c then lstrip s' else s
  | EmptyString => EmptyString
  end.

(** Drops the trailing white space: [None] stands for a suffix that is all
    white space. *)
Fixpoint rstrip_aux (s : string) : option string :=
  match s with
  | EmptyString => None
  | String c s' =>
      match rstrip_aux s' with
      | Some t => Some (String c t)
      | None => if isspace c then None else Some (String c EmptyString)
      end
  end.

Definition rstrip (s : string) : string :=
  match rstrip_aux s with
  | Some t => t
  | None => EmptyString
  end.

(** [s.strip()] *)
Definition strip (s : string) : string := rstrip (lstrip s).

(** [s.endswith(suffix)] *)
Definition endswith (s suffix : string) : bool :=
  let n := String.length s in
  let k := String.length suffix in
  (Nat.leb k n && String.eqb (substring (n - k) k s) suffix)%bool.


(** A Python [dict] with [str] keys. *)
Definition dict (V : Type) : Type := list (string * V).

Fixpoint dict_get {V} (d : dict V) (k : string) : option V :=
  match d with
  | [] => None
  | (k', v) :: d' => if String.eqb k' k then Some v else dict_get d' k
  end.

Definition dict_mem {V} (d : dict V) (k : string) : bool :=
  match dict_get d k with
  | Some _ => true
  | None => false
  end.

(** [d\[k\] = v]: the value of an existing key is replaced in place, a new
    key is appended. *)
Fixpoint dict_set {V} (d : dict V) (k : string) (v : V) : dict V :=
  match d with
  | [] => [(k, v)]
  | (k', v') :: d' =>
      if String.eqb k' k then (k', v) :: d' else (k', v') :: dict_set d' k v
  end.


Definition keys {V} (d : dict V) : list string := map fst d.

End Py.

Export Py.

Declare Scope py_scope.
Delimit Scope py_scope with py.
Notation "x <- r ;; k" := (bind r (fun x => k))
  (at level 61, r at next level, right associativity) : py_scope.
Local Open Scope py_scope.

(* ================================================================== *)
(** * The fragment of Python's [re] that the services use *)
(* ================================================================== *)

(** A backtracking matcher with the search order of [re]: alternatives left
    to right, a greedy repetition longest first, a lazy one shortest first.
    Every repetition in the patterns of the services is over a single
    character class, so repetition is over a class.  [^] and [$] have their
    [re.MULTILINE] meaning, which all the anchored patterns are compiled
    with. *)
Module Re.

Inductive regex : Type :=
| Eps
| Chr (a : ascii)                (* a literal character *)
| ChrI (a : ascii)               (* a literal lower-case letter under (?i) *)
| Cls (p : ascii -> bool)        (* one character of a class *)
| Star (p : ascii -> bool)       (* p*, greedy *)
| StarLazy (p : ascii -> bool)   (* p*?, lazy *)
| Bol                            (* ^ *)
| Eol                            (* $ *)
| WordB                          (* \b *)
| Group (r : regex)              (* ( r ), the group numbered 1 *)
| Cat (r1 r2 : regex)
| Alt (r1 r2 : regex).

(** A position in the subject: the character before it, the text after it,
    its index, and the span captured by the group so far. *)
Record cursor : Type := Cursor {
  prev : option ascii;
  rest : string;
  pos : nat;
  grp : option (nat * nat)
}.

Definition start_of (s : string) : cursor := Cursor None s 0 None.

Definition step (c : cursor) : option (ascii * cursor) :=
  match rest c with
  | String b s => Some (b, Cursor (Some b) s (S (pos c)) (grp c))
  | EmptyString => None
  end.

Definition at_bol (c : cursor) : bool :=
  match prev c with
  | None => true
  | Some b => Ascii.eqb b nl
  end.

Definition at_eol (c : cursor) : bool :=
  match rest c with
  | EmptyString => true
  | String b _ => Ascii.eqb b nl
  end.

Definition at_boundary (c : cursor) : bool :=
  let before := match prev c with Some b => isword b | None => false end in
  let after := match rest c with String b _ => isword b | EmptyString => false end in
  negb (Bool.eqb before after).

Section Run.
Context {X : Type}.

Definition orelse (a b : option X) : option X :=
  match a with
  | Some x => Some x
  | None => b
  end.

Fixpoint star (p : ascii -> bool) (pv : option ascii) (s : string)
         (i : nat) (g : option (nat * nat)) (k : cursor -> option X)
  : option X :=
  match s with
  | String b s' =>
      if p b
      then orelse (star p (Some b) s' (S i) g k) (k (Cursor pv s i g))
      else k (Cursor pv s i g)
  | EmptyString => k (Cursor pv s i g)
  end.

Fixpoint star_lazy (p : ascii -> bool) (pv : option ascii) (s : string)
         (i : nat) (g : option (nat * nat)) (k : cursor -> option X)
  : option X :=
  orelse (k (Cursor pv s i g))
    match s with
    | String b s' => if p b then star_lazy p (Some b) s' (S i) g k else None
    | EmptyString => None
    end.

Fixpoint run (r : regex) (c : cursor) (k : cursor -> option X) : option X :=
  match r with
  | Eps => k c
  | Chr a =>
      match step c with
      | Some (b, c') => if Ascii.eqb a b then k c' else None
      | None => None
      end
  | ChrI a =>
      match step c with
      | Some (b, c') => if Ascii.eqb a (lower_char b) then k c' else None
      | None => None
      end
  | Cls p =>
      match step c with
      | Some (b, c') => if p b then k c' else None
      | None => None
      end
  | Star p => star p (prev c) (rest c) (pos c) (grp c) k
  | StarLazy p => star_lazy p (prev c) (rest c) (pos c) (grp c) k
  | Bol => if at_bol c then k c else None
  | Eol => if at_eol c then k c else None
  | WordB => if at_boundary c then k c else None
  | Group r1 =>
      run r1 c (fun c' =>
        k (Cursor (prev c') (rest c') (pos c') (Some (pos c, pos c'))))
  | Cat r1 r2 => run r1 c (fun c' => run r2 c' k)
  | Alt r1 r2 => orelse (run r1 c k) (run r2 c k)
  end.
End Run.

(** A match object: [m.start()], [m.end()] and the span of group 1. *)
Record mobj : Type := Match {
  m_start : nat;
  m_end : nat;
  m_grp : option (nat * nat)
}.

(** [pattern.match] at one position. *)
Definition match_at (r : regex) (c : cursor) : option cursor :=
  run r (Cursor (prev c) (rest c) (pos c) None) Some.

(** [pattern.finditer]: the leftmost match, then the leftmost match after
    it, and so on.  None of the patterns below matches the empty string (each
    holds a literal character), so the rule of [re] for what follows an empty
    match is not exercised; an empty match is reported and the search moves
    one character on. *)
Fixpoint finditer_from (fuel : nat) (r : regex) (c : cursor) : list mobj :=
  match fuel with
  | O => []
  | S fuel' =>
      match match_at r c with
      | Some c' =>
          let m := Match (pos c) (pos c') (grp c') in
          if Nat.ltb (pos c) (pos c')
          then m :: finditer_from fuel' r c'
          else match step c with
               | Some (_, c1) => m :: finditer_from fuel' r c1
               | None => [m]
               end
      | None =>
          match step c with
          | Some (_, c1) => finditer_from fuel' r c1
          | None => []
          end
      end
  end.

Definition finditer (r : regex) (s : string) : list mobj :=
  finditer_from (S (String.length s)) r (start_of s).

(** [m.group(0)] and [m.group(1)] on the subject [s]. *)
Definition group0 (s : string) (m : mobj) : string :=
  slice (m_start m) (m_end m) s.

Definition group1 (s : string) (m : mobj) : string :=
  match m_grp m with
  | Some (i, j) => slice i j s
  | None => EmptyString
  end.

(** [pattern.sub('', s)]: the text outside the matches. *)
Fixpoint outside (s : string) (from : nat) (ms : list mobj) : list string :=
  match ms with
  | [] => [slice from (String.length s) s]
  | m :: ms' => slice from (m_start m) s :: outside s (m_end m) ms'
  end.

Definition sub_empty (r : regex) (s : string) : string :=
  String.concat EmptyString (outside s 0 (finditer r s)).

(** [re.split(pattern, s)] for a pattern without groups. *)
Definition split (r : regex) (s : string) : list string :=
  outside s 0 (finditer r s).

(** Pattern-building shorthands. *)
Fixpoint lit (s : string) : regex :=
  match s with
  | EmptyString => Eps
  | String a EmptyString => Chr a
  | String a s' => Cat (Chr a) (lit s')
  end.

Fixpoint lit_i (s : string) : regex :=
  match s with
  | EmptyString => Eps
  | String a EmptyString => ChrI a
  | String a s' => Cat (ChrI a) (lit_i s')
  end.

Fixpoint seq (rs : list regex) : regex :=
  match rs with
  | [] => Eps
  | [r] => r
  | r :: rs' => Cat r (seq rs')
  end.

Definition any (c : ascii) : bool := true.
Definition dot (c : ascii) : bool := negb (Ascii.eqb c nl).
Definition chr (a : ascii) (c : ascii) : bool := Ascii.eqb a c.
Definition plus (p : ascii -> bool) : regex := Cat (Cls p) (Star p).

End Re.

(* ================================================================== *)
(** * Python floats and the arithmetic of the coverage fallback *)
(* ================================================================== *)

(** A Python [float] is an IEEE binary64 number.  Operations are the
    correctly rounded ones of [SpecFloat]; where CPython raises instead of
    giving an infinity, the model raises. *)
Module PyFloat.

Local Open Scope Z_scope.

Definition prec : Z := 53.
Definition emax : Z := 1024.



Definition mantissa (sign : bool) (m : Z) : spec_float :=
  match m with
  | Z0 => S754_zero sign
  | Zpos p => S754_finite sign p 0
  | Zneg p => S754_finite sign p 0
  end.






Definition is_zero (x : spec_float) : bool :=
  match x with
  | S754_zero _ => true
  | _ => false
  end.

(** [float(text)] for the text [digits]e[exp10] of a JSON number: the float
    nearest to [digits * 10 ^ exp10]. *)
Definition of_decimal (sign : bool) (digits : Z) (exp10 : Z) : spec_float :=
  match digits with
  | Zpos p =>
      if Z.leb 0 exp10
      then binary_normalize prec emax
             (if sign then - (digits * 10 ^ exp10) else digits * 10 ^ exp10)
             0 sign
      else SFdiv prec emax (S754_finite sign p 0)
             (mantissa false (10 ^ (- exp10)))
  | _ => S754_zero sign
  end.

End PyFloat.

(* ================================================================== *)
(** * Values of [json.loads] and [yaml.safe_load] *)
(* ================================================================== *)

Module Json.

Local Unset Elimination Schemes.

Inductive value : Type :=
| VNone
| VBool (b : bool)
| VInt (n : Z)
| VFloat (f : spec_float)
| VStr (s : string)
| VList (l : list value)
| VDict (d : list (string * value)).

Local Set Elimination Schemes.

(** Truth value of an object, as [if x], [not x] and [x or y] test it. *)
Definition truthy (v : value) : bool :=
  match v with
  | VNone => false
  | VBool b => b
  | VInt n => negb (Z.eqb n 0)
  | VFloat f => negb (PyFloat.is_zero f)
  | VStr s => negb (String.eqb s EmptyString)
  | VList l => match l with [] => false | _ => true end
  | VDict d => match d with [] => false | _ => true end
  end.


Definition is_dict (v : value) : bool :=
  match v with VDict _ => true | _ => false end.

Definition is_list (v : value) : bool :=
  match v with VList _ => true | _ => false end.

(** [x or y] *)
Definition or_else (x y : value) : value := if truthy x then x else y.


(** [v.get(k, default)] *)
Definition get_default (v : value) (k : string) (dflt : value) : result value :=
  match v with
  | VDict d => Ok (match dict_get d k with Some x => x | None => dflt end)
  | _ => Raise AttributeError
  end.









(** [a == b] on the values that can be dictionary keys: numbers compare by
    value across [bool], [int] and [float]; a NaN equals nothing. *)
Definition float_eq_int (f : spec_float) (n : Z) : bool :=
  match f with
  | S754_zero _ => Z.eqb n 0
  | S754_finite s m e =>
      let a := if s then Zneg m else Zpos m in
      if Z.leb 0 e then Z.eqb (Z.shiftl a e) n
      else Z.eqb (Z.shiftl n (- e)) a
  | _ => false
  end.

Definition int_of_bool (b : bool) : Z := if b then 1%Z else 0%Z.

Definition key_eqb (a b : value) : bool :=
  match a, b with
  | VNone, VNone => true
  | VStr s, VStr t => String.eqb s t
  | VBool x, VBool y => Bool.eqb x y
  | VBool x, VInt n | VInt n, VBool x => Z.eqb (int_of_bool x) n
  | VInt m, VInt n => Z.eqb m n
  | VBool x, VFloat f | VFloat f, VBool x => float_eq_int f (int_of_bool x)
  | VInt n, VFloat f | VFloat f, VInt n => float_eq_int f n
  | VFloat f, VFloat g => SFeqb f g
  | _, _ => false
  end.

(** Lists and dictionaries are not hashable. *)
Definition hashable (v : value) : bool :=
  match v with
  | VList _ | VDict _ => false
  | _ => true
  end.

(** ** [json.loads]

    The scanner of CPython's [json] module on the strings of the model.  A
    [JSONDecodeError] is a [ValueError].  An escape [\uXXXX] above U+00FF
    names a character that the strings of the model cannot hold and is
    rejected here, where CPython accepts it.  The services that read backend
    replies therefore take [json.loads] as a parameter, and their properties
    hold for whatever it accepts and raises; this scanner stands for it in
    the examples, whose texts hold no such escape. *)

Definition dquote : ascii := ascii_of_N 34.
Definition backslash : ascii := ascii_of_N 92.

Definition is_json_ws (c : ascii) : bool :=
  (N.eqb (code c) 32 || N.eqb (code c) 9 || N.eqb (code c) 10
   || N.eqb (code c) 13)%bool.

Fixpoint skip_ws (s : string) : string :=
  match s with
  | String c s' => if is_json_ws c then skip_ws s' else s
  | EmptyString => EmptyString
  end.

Definition hex_digit (c : ascii) : option N :=
  if in_range 48 57 c then Some (code c - 48)%N
  else if in_range 97 102 c then Some (code c - 87)%N
  else if in_range 65 70 c then Some (code c - 55)%N
  else None.

Definition hex4 (s : string) : option (N * string) :=
  match s with
  | String a (String b (String c (String d s'))) =>
      match hex_digit a, hex_digit b, hex_digit c, hex_digit d with
      | Some x, Some y, Some z, Some w =>
          Some (((x * 16 + y) * 16 + z) * 16 + w, s')%N
      | _, _, _, _ => None
      end
  | _ => None
  end.

Definition unescape (c : ascii) : option ascii :=
  if Ascii.eqb c dquote then Some c
  else if Ascii.eqb c backslash then Some c
  else if Ascii.eqb c "/" then Some c
  else if Ascii.eqb c "b" then Some (ascii_of_N 8)
  else if Ascii.eqb c "f" then Some (ascii_of_N 12)
  else if Ascii.eqb c "n" then Some (ascii_of_N 10)
  else if Ascii.eqb c "r" then Some (ascii_of_N 13)
  else if Ascii.eqb c "t" then Some (ascii_of_N 9)
  else None.

(** The text after an opening quote, up to the closing one. *)
Fixpoint scanstring (fuel : nat) (s : string) : result (string * string) :=
  match fuel with
  | O => Raise ValueError
  | S fuel' =>
      match s with
      | EmptyString => Raise ValueError
      | String c s' =>
          if Ascii.eqb c dquote then Ok (EmptyString, s')
          else if Ascii.eqb c backslash then
            match s' with
            | EmptyString => Raise ValueError
            | String e s'' =>
                if Ascii.eqb e "u" then
                  match hex4 s'' with
                  | Some (n, r) =>
                      if N.ltb n 256
                      then p <- scanstring fuel' r ;;
                           Ok (String (ascii_of_N n) (fst p), snd p)
                      else Raise ValueError
                  | None => Raise ValueError
                  end
                else
                  match unescape e with
                  | Some x =>
                      p <- scanstring fuel' s'' ;;
                      Ok (String x (fst p), snd p)
                  | None => Raise ValueError
                  end
            end
          else if N.ltb (code c) 32 then Raise ValueError
          else p <- scanstring fuel' s' ;; Ok (String c (fst p), snd p)
      end
  end.

(** A run of ASCII digits: its value, its length and the text after it. *)
Fixpoint digits (s : string) (acc : Z) (n : Z) : Z * Z * string :=
  match s with
  | String c s' =>
      if isdigit c
      then digits s' (acc * 10 + Z.of_N (code c - 48))%Z (n + 1)%Z
      else (acc, n, s)
  | EmptyString => (acc, n, s)
  end.

Definition starts_with_digit (s : string) : bool :=
  match s with
  | String c _ => isdigit c
  | EmptyString => false
  end.

(** The fraction [.digits] of a number, when there is one. *)
Definition fraction (mant : Z) (s : string) : option (Z * Z * string) :=
  match s with
  | String "." s' =>
      if starts_with_digit s' then Some (digits s' mant 0%Z) else None
  | _ => None
  end.

(** The exponent [e+digits] of a number, when there is one. *)
Definition exponent (s : string) : option (Z * string) :=
  match s with
  | String c s' =>
      if (Ascii.eqb c "e" || Ascii.eqb c "E")%bool then
        match s' with
        | String "-" s'' =>
            if starts_with_digit s''
            then let '(e, _, r) := digits s'' 0%Z 0%Z in Some ((- e)%Z, r)
            else None
        | String "+" s'' =>
            if starts_with_digit s''
            then let '(e, _, r) := digits s'' 0%Z 0%Z in Some (e, r)
            else None
        | _ =>
            if starts_with_digit s'
            then let '(e, _, r) := digits s' 0%Z 0%Z in Some (e, r)
            else None
        end
      else None
  | EmptyString => None
  end.

(** [sys.get_int_max_str_digits()], which no service changes: the longest
    integer literal that [int] converts. *)
Definition int_max_str_digits : Z := 4300%Z.

(** The number at the head of [s], after its sign; an integer literal of
    more than [int_max_str_digits] digits is a [ValueError]. *)
Definition match_number (sign : bool) (s : string) : result (value * string) :=
  match s with
  | String c s' =>
      if isdigit c then
        let '(ip, nd, r) :=
          if Ascii.eqb c "0" then (0%Z, 1%Z, s') else digits s 0%Z 0%Z in
        match fraction ip r with
        | Some (mant, nfrac, r1) =>
            match exponent r1 with
            | Some (e, r2) =>
                Ok (VFloat (PyFloat.of_decimal sign mant (e - nfrac)), r2)
            | None => Ok (VFloat (PyFloat.of_decimal sign mant (- nfrac)), r1)
            end
        | None =>
            match exponent r with
            | Some (e, r2) => Ok (VFloat (PyFloat.of_decimal sign ip e), r2)
            | None =>
                if Z.ltb int_max_str_digits nd then Raise ValueError
                else Ok (VInt (if sign then (- ip)%Z else ip), r)
            end
        end
      else Raise ValueError
  | EmptyString => Raise ValueError
  end.

(** [s] without the prefix [p], when it starts with it. *)
Fixpoint after_prefix (p s : string) : option string :=
  match p, s with
  | EmptyString, _ => Some s
  | String a p', String b s' => if Ascii.eqb a b then after_prefix p' s' else None
  | _, EmptyString => None
  end.

Section Containers.
Variable scan : string -> result (value * string).

(** The elements of an array, from its first element on. *)
Fixpoint parse_array (fuel : nat) (s : string) (acc : list value)
  : result (value * string) :=
  match fuel with
  | O => Raise ValueError
  | S fuel' =>
      p <- scan s ;;
      match skip_ws (snd p) with
      | String "]" r => Ok (VList (rev (fst p :: acc)), r)
      | String "," r => parse_array fuel' (skip_ws r) (fst p :: acc)
      | _ => Raise ValueError
      end
  end.

(** The members of an object, from its first key on; a repeated key keeps
    its place and takes the last value, as [dict(pairs)] does. *)
Fixpoint parse_object (fuel : nat) (s : string) (acc : dict value)
  : result (value * string) :=
  match fuel with
  | O => Raise ValueError
  | S fuel' =>
      match s with
      | String c s1 =>
          if Ascii.eqb c dquote then
            k <- scanstring (S (String.length s1)) s1 ;;
            match skip_ws (snd k) with
            | String ":" s2 =>
                p <- scan (skip_ws s2) ;;
                let acc' := dict_set acc (fst k) (fst p) in
                match skip_ws (snd p) with
                | String "}" r => Ok (VDict acc', r)
                | String "," r => parse_object fuel' (skip_ws r) acc'
                | _ => Raise ValueError
                end
            | _ => Raise ValueError
            end
          else Raise ValueError
      | EmptyString => Raise ValueError
      end
  end.
End Containers.

(** The nesting depth that the scanner is left with: CPython enters every
    array and object through [Py_EnterRecursiveCall], and with the default
    recursion limit of 1000 a call from the top level of a module has room
    for 995 levels; every frame of a deeper caller takes one. *)
Definition recursion_room : nat := 995.

Definition RecursionError : exn := OtherError "RecursionError".

(** The value at the head of [s], with [room] levels of nesting left. *)
Fixpoint scan_once (room : nat) (s : string) : result (value * string) :=
  match s with
  | EmptyString => Raise ValueError
  | String c s' =>
      if Ascii.eqb c dquote then
        p <- scanstring (S (String.length s')) s' ;;
        Ok (VStr (fst p), snd p)
      else if Ascii.eqb c "{" then
        match room with
        | O => Raise RecursionError
        | S room' =>
            match skip_ws s' with
            | String "}" r => Ok (VDict [], r)
            | r => parse_object (scan_once room') (S (String.length r)) r []
            end
        end
      else if Ascii.eqb c "[" then
        match room with
        | O => Raise RecursionError
        | S room' =>
            match skip_ws s' with
            | String "]" r => Ok (VList [], r)
            | r => parse_array (scan_once room') (S (String.length r)) r []
            end
        end
      else
        match after_prefix "null" s, after_prefix "true" s,
              after_prefix "false" s with
        | Some r, _, _ => Ok (VNone, r)
        | _, Some r, _ => Ok (VBool true, r)
        | _, _, Some r => Ok (VBool false, r)
        | None, None, None =>
            match after_prefix "NaN" s, after_prefix "Infinity" s,
                  after_prefix "-Infinity" s with
            | Some r, _, _ => Ok (VFloat S754_nan, r)
            | _, Some r, _ => Ok (VFloat (S754_infinity false), r)
            | _, _, Some r => Ok (VFloat (S754_infinity true), r)
            | None, None, None =>
                if Ascii.eqb c "-" then match_number true s'
                else match_number false s
            end
        end
  end.

(** [json.loads(s)]: one value, with white space around it and nothing
    else. *)
Definition loads (s : string) : result value :=
  p <- scan_once recursion_room (skip_ws s) ;;
  match skip_ws (snd p) with
  | EmptyString => Ok (fst p)
  | _ => Raise ValueError
  end.

End Json.

Export Json.

(* ================================================================== *)
(** * [str.format] and [str.format_map] *)
(* ================================================================== *)

(** The replacement-field scanner of CPython ([MarkupIterator_next] and
    [parse_field]).  Keyword values are texts (the services pass texts, and
    one [int] whose plain rendering is its decimal text).  A field that is a
    bare name is rendered in full.  A field with an attribute or index
    lookup, a conversion or a format specification is delimited here and
    rendered by [extended], which stands for the part of the formatter that
    is not modelled: it is given the keyword lookup, the field name, the
    conversion character and the format specification. *)
Module Format.

Definition lookup_fn : Type := string -> result string.
Definition extended_fn : Type :=
  lookup_fn -> string -> option ascii -> string -> result string.

Inductive field_end : Set :=
| EndBrace     (* the field name is closed by a brace *)
| EndBang      (* a conversion follows *)
| EndColon.    (* a format specification follows *)

(** The field name: the name, what ends it, and the text after that. *)
Fixpoint scan_name (s : string) (in_index : bool)
  : result (string * field_end * string) :=
  match s with
  | EmptyString => Raise ValueError
  | String c s' =>
      if in_index then
        p <- scan_name s' (negb (Ascii.eqb c "]")) ;;
        let '(name, e, r) := p in Ok (String c name, e, r)
      else if Ascii.eqb c "{" then Raise ValueError
      else if Ascii.eqb c "}" then Ok (EmptyString, EndBrace, s')
      else if Ascii.eqb c "!" then Ok (EmptyString, EndBang, s')
      else if Ascii.eqb c ":" then Ok (EmptyString, EndColon, s')
      else
        p <- scan_name s' (Ascii.eqb c "[") ;;
        let '(name, e, r) := p in Ok (String c name, e, r)
  end.

(** The format specification, up to the brace that closes the field; braces
    inside it nest. *)
Fixpoint scan_spec (s : string) (depth : nat) : result (string * string) :=
  match s with
  | EmptyString => Raise ValueError
  | String c s' =>
      if Ascii.eqb c "{" then
        p <- scan_spec s' (S depth) ;; Ok (String c (fst p), snd p)
      else if Ascii.eqb c "}" then
        match depth with
        | O => Ok (EmptyString, s')
        | S d => p <- scan_spec s' d ;; Ok (String c (fst p), snd p)
        end
      else p <- scan_spec s' depth ;; Ok (String c (fst p), snd p)
  end.

(** A parsed replacement field and the text after it. *)
Record field : Type := Field {
  f_name : string;
  f_conversion : option ascii;
  f_spec : string;
  f_plain : bool;      (* closed right after its name *)
  f_rest : string
}.

Definition parse_field (s : string) : result field :=
  p <- scan_name s false ;;
  let '(name, e, r) := p in
  match e with
  | EndBrace => Ok (Field name None EmptyString true r)
  | EndColon =>
      q <- scan_spec r 0 ;; Ok (Field name None (fst q) false (snd q))
  | EndBang =>
      match r with
      | EmptyString => Raise ValueError
      | String conv r1 =>
          match r1 with
          | String d r2 =>
              if Ascii.eqb d "}"
              then Ok (Field name (Some conv) EmptyString false r2)
              else if Ascii.eqb d ":" then
                q <- scan_spec r2 0 ;;
                Ok (Field name (Some conv) (fst q) false (snd q))
              else Raise ValueError
          | EmptyString => Raise ValueError
          end
      end
  end.

(** [PY_SSIZE_T_MAX] of a 64-bit build. *)
Definition ssize_max : Z := (2 ^ 63 - 1)%Z.

(** The index that a field name spells, read from the left as CPython's
    [get_integer] reads it: no index at the first character that is no
    decimal digit, [ValueError] as soon as the digits read so far exceed
    [PY_SSIZE_T_MAX]. *)
Fixpoint get_integer (s : string) (acc : Z) : result (option Z) :=
  match s with
  | EmptyString => Ok (Some acc)
  | String c s' =>
      if isdigit c then
        let d := Z.of_N (code c - 48) in
        if Z.ltb ((ssize_max - d) / 10) acc then Raise ValueError
        else get_integer s' (acc * 10 + d)%Z
      else Ok None
  end.

Fixpoint has_lookup (s : string) : bool :=
  match s with
  | EmptyString => false
  | String c s' => (Ascii.eqb c "." || Ascii.eqb c "[" || has_lookup s')%bool
  end.

Section Formatter.
(** The keyword lookup, and the exception for a positional field:
    [IndexError] under [format( **kwargs)] (no positional argument is ever
    passed), [ValueError] under [format_map]. *)
Variable lookup : lookup_fn.
Variable positional : exn.
Variable extended : extended_fn.

Definition render (f : field) : result string :=
  if (f_plain f && negb (has_lookup (f_name f)))%bool then
    match f_name f with
    | EmptyString => Raise positional
    | name =>
        i <- get_integer name 0 ;;
        match i with
        | Some _ => Raise positional
        | None => lookup name
        end
    end
  else extended lookup (f_name f) (f_conversion f) (f_spec f).

Fixpoint vformat (fuel : nat) (s : string) {struct fuel} : result string :=
  match fuel with
  | O => Ok EmptyString
  | S fuel' =>
      match s with
      | EmptyString => Ok EmptyString
      | String c s' =>
          if Ascii.eqb c "{" then
            match s' with
            | EmptyString => Raise ValueError
            | String d s'' =>
                if Ascii.eqb d "{"
                then t <- vformat fuel' s'' ;; Ok (String c t)
                else
                  f <- parse_field s' ;;
                  v <- render f ;;
                  t <- vformat fuel' (f_rest f) ;;
                  Ok (v ++ t)
            end
          else if Ascii.eqb c "}" then
            match s' with
            | String d s'' =>
                if Ascii.eqb d "}"
                then t <- vformat fuel' s'' ;; Ok (String c t)
                else Raise ValueError
            | EmptyString => Raise ValueError
            end
          else t <- vformat fuel' s' ;; Ok (String c t)
      end
  end.
End Formatter.

(** [s.format( **kwargs)] *)
Definition format (extended : extended_fn) (s : string) (kwargs : dict string)
  : result string :=
  vformat
    (fun k => match dict_get kwargs k with
              | Some v => Ok v
              | None => Raise KeyError
              end)
    IndexError extended (S (String.length s)) s.

(** [s.format_map(m)] for a mapping [m] given by its lookup. *)
Definition format_map (extended : extended_fn) (s : string) (m : lookup_fn)
  : result string :=
  vformat m ValueError extended (S (String.length s)) s.

End Format.

(* ================================================================== *)
(** * [pathlib] *)
(* ================================================================== *)

Module Pathlib.

(** The components of a POSIX path: the texts between slashes, without the
    empty ones and the single dots. *)
Fixpoint split_slash (s : string) (cur : string) : list string :=
  match s with
  | EmptyString => [cur]
  | String c s' =>
      if Ascii.eqb c "/" then cur :: split_slash s' EmptyString
      else split_slash s' (cur ++ String c EmptyString)
  end.

Definition parts (p : string) : list string :=
  filter (fun x => negb (String.eqb x EmptyString || String.eqb x "."))
         (split_slash p EmptyString).

(** [Path(p).name] *)
Definition name (p : string) : string := last (parts p) EmptyString.

(** The index of the last dot of [s], counted from [i]. *)
Fixpoint rfind_dot (s : string) (i : nat) (found : option nat) : option nat :=
  match s with
  | EmptyString => found
  | String c s' =>
      rfind_dot s' (S i) (if Ascii.eqb c "." then Some i else found)
  end.

(** [Path(p).stem]: the name without its last suffix. *)
Definition stem (p : string) : string :=
  let n := name p in
  match rfind_dot n 0 None with
  | Some i =>
      if (Nat.ltb 0 i && Nat.ltb i (String.length n - 1))%bool
      then take i n else n
  | None => n
  end.

End Pathlib.

(* ================================================================== *)
(** * What the embedding takes as given *)
(* ================================================================== *)

(** A role-tagged message of a prompt or of a backend request. *)
Record message : Type := Message {
  role : string;
  content : string
}.

(** The parts of Python's library that are not modelled: [json.dumps] (its
    first argument is [ensure_ascii]), [str(v)] for a value that is not a
    [str], and the rendering of extended replacement fields. *)
Record pylib : Type := PyLib {
  json_dumps : bool -> value -> string;
  str_other : value -> string;
  format_extended : Format.extended_fn
}.

(** [str(v)], which is also how an f-string renders [v]. *)
Definition py_str (L : pylib) (v : value) : string :=
  match v with
  | VStr s => s
  | _ => str_other L v
  end.

(** The prompt templates are data files that are not part of the sources:
    [prompts] gives the message list that [read_prompt] returns for a file
    name. *)
Definition prompts : Type := string -> list message.

(** The generation backend: the reply to the [n]-th call of [llm.invoke],
    which may depend on the request and may be an exception. *)
Definition backend : Type := nat -> list message -> result string.

Definition dq : string := String (ascii_of_N 34) EmptyString.
Definition newline : string := String nl EmptyString.

(* ================================================================== *)
(** * [backend/services/utils.py] *)
(* ================================================================== *)

Module Utils.

(** [format_messages(template_msgs, **kwargs)]:
    [content = m\['content'\].format( **kwargs)] for each message in turn. *)
Fixpoint format_messages (L : pylib) (template_msgs : list message)
         (kwargs : dict string) : result (list message) :=
  match template_msgs with
  | [] => Ok []
  | m :: rest =>
      c <- Format.format (format_extended L) (content m) kwargs ;;
      out <- format_messages L rest kwargs ;;
      Ok (Message (role m) c :: out)
  end.

End Utils.

(* ================================================================== *)
(** * [backend/services/plugin_builder.py] *)
(* ================================================================== *)

Module PluginBuilder.

Import Re.

Definition _MAX_ANALYSIS : nat := 3 * 1000.
Definition _MAX_CODE : nat := 8 * 1000.

Definition ws : regex := Star isspace.

(** The marker pattern under [re.MULTILINE]: line start, white space,
    [===], white space, [FILE:], white space, a lazy run of characters other
    than a newline (the group), white space, [===], white space, line
    end. *)
Definition _FILE_SPLIT_PATTERN : regex :=
  seq [Bol; ws; lit "==="; ws; lit "FILE:"; ws; Group (StarLazy dot); ws;
       lit "==="; ws; Eol].

(** The class [a-zA-Z0-9_-]. *)
Definition tag_char (c : ascii) : bool :=
  (islower_ascii c || isupper_ascii c || isdigit c || chr "_" c
   || chr "-" c)%bool.

(** The pattern of a code-fence line under [re.MULTILINE]: line start,
    white space, three or more backticks, a tag of the characters
    [a-zA-Z0-9_-] (the group), white space, line end; or the same without
    the tag. *)
Definition _CODE_FENCE : regex :=
  Alt (seq [Bol; ws; lit "``"; plus (chr "`"); Group (Star tag_char); ws; Eol])
      (seq [Bol; ws; lit "``"; plus (chr "`"); ws; Eol]).

(** An opening brace, the longest run of any characters, a closing
    brace. *)
Definition _JSON_BLOCKS : regex := seq [Chr "{"; Star any; Chr "}"].

(** The word [schema.lua] in any letter case, between word boundaries. *)
Definition schema_mention : regex := seq [WordB; lit_i "schema.lua"; WordB].

Definition _LANG_BY_EXT : dict string :=
  [(".js", "javascript"); (".py", "python"); (".java", "java");
   (".ts", "typescript")].

Definition _REQUIRED_KEYS : list string :=
  ["plugin_name"; "summary"; "entry_points"; "config"].

(** [_SafeDict( **kwargs)]: a missing key is left as a literal placeholder. *)
Definition _SafeDict (kwargs : dict string) : Format.lookup_fn :=
  fun key =>
    match dict_get kwargs key with
    | Some v => Ok v
    | None => Ok ("{" ++ key ++ "}")
    end.

(** [_safe_format_messages(template_msgs, **kwargs)]: the content is passed
    through unformatted on any formatting error. *)
Definition _safe_format_messages (L : pylib) (template_msgs : list message)
           (kwargs : dict string) : list message :=
  map (fun m =>
         let c := match Format.format_map (format_extended L) (content m)
                          (_SafeDict kwargs) with
                  | Ok c' => c'
                  | Raise _ => content m
                  end in
         Message (role m) c)
      template_msgs.

(** [s.replace(CR LF, LF).replace(CR, LF)] *)
Fixpoint normalize_newlines (s : string) : string :=
  match s with
  | EmptyString => EmptyString
  | String c s' =>
      if Ascii.eqb c cr then
        match s' with
        | String d s'' =>
            if Ascii.eqb d nl then String nl (normalize_newlines s'')
            else String nl (normalize_newlines s')
        | EmptyString => String nl EmptyString
        end
      else String c (normalize_newlines s')
  end.

(** [_sanitize_code_snippet(s, limit)] on [None] and on text (no caller
    passes bytes). *)
Definition _sanitize_code_snippet (s : option string) (limit : nat) : string :=
  match s with
  | None => EmptyString
  | Some t => take limit (normalize_newlines (sub_empty _CODE_FENCE t))
  end.

(** [blocks.sort(key=lambda m: len(m.group(0)), reverse=True)]: longest
    first, blocks of one length in their order of appearance. *)
Definition span (m : mobj) : nat := m_end m - m_start m.

Fixpoint insert_by_span (m : mobj) (sorted : list mobj) : list mobj :=
  match sorted with
  | [] => [m]
  | x :: rest =>
      if Nat.ltb (span m) (span x) then x :: insert_by_span m rest
      else m :: sorted
  end.

Definition sort_by_span (ms : list mobj) : list mobj :=
  fold_right insert_by_span [] ms.

Section Parser.

(** [json.loads], which the services call inside [try]: whatever it accepts
    and whatever it raises. *)
Variable json_loads : string -> result value.

(** The first block that parses, or the empty object. *)
Fixpoint first_parsed_with (text : string) (blocks : list mobj) : value :=
  match blocks with
  | [] => VDict []
  | m :: rest =>
      match json_loads (group0 text m) with
      | Ok v => v
      | Raise _ => first_parsed_with text rest
      end
  end.

(** [_safe_json_loads(text)] *)
Definition _safe_json_loads_with (text : string) : value :=
  match json_loads text with
  | Ok v => v
  | Raise _ =>
      first_parsed_with text (sort_by_span (finditer _JSON_BLOCKS text))
  end.

End Parser.

(** [_safe_json_loads] with the scanner of [Json] for [json.loads]. *)
Definition first_parsed : string -> list mobj -> value :=
  first_parsed_with Json.loads.

Definition _safe_json_loads : string -> value :=
  _safe_json_loads_with Json.loads.

(** [f"custom_{Path(filename).stem}" if filename else "custom_plugin"] *)
Definition default_name (filename : string) : string :=
  if String.eqb filename EmptyString then "custom_plugin"
  else "custom_" ++ Pathlib.stem filename.

Definition required_default (k : string) : value :=
  if String.eqb k "config" then VDict []
  else if String.eqb k "summary" then VStr "unknown"
  else VList [].

(** [_ensure_spec(spec, filename)] *)
Definition _ensure_spec (spec : dict value) (filename : string) : dict value :=
  let spec1 :=
    fold_left (fun d k => if dict_mem d k then d
                          else dict_set d k (required_default k))
              _REQUIRED_KEYS spec in
  match dict_get spec1 "plugin_name" with
  | Some v =>
      if truthy v then spec1
      else dict_set spec1 "plugin_name" (VStr (default_name filename))
  | None => dict_set spec1 "plugin_name" (VStr (default_name filename))
  end.

Definition field_type (v : value) : string :=
  match v with
  | VBool _ => "boolean"
  | VInt _ | VFloat _ => "number"
  | _ => "string"
  end.

(** [_schema_from_spec(spec)] *)
Definition _schema_from_spec (L : pylib) (spec : dict value) : result string :=
  let config := match dict_get spec "config" with
                | Some v => or_else v (VDict [])
                | None => VDict []
                end in
  match config with
  | VDict items =>
      let cfg_fields :=
        map (fun kv => VDict [(fst kv,
                               VDict [("type", VStr (field_type (snd kv)))])])
            items in
      name <- match dict_get spec "plugin_name" with
              | Some (VStr n) => Ok n
              | Some _ => Raise TypeError
              | None => Ok "custom-plugin"
              end ;;
      Ok ("return { name = " ++ dq ++ name ++ dq ++ ", "
          ++ "fields = { { config = { type = " ++ dq ++ "record" ++ dq
          ++ ", fields = " ++ json_dumps L true (VList cfg_fields)
          ++ " } } } }")
  | _ => Raise AttributeError
  end.

(** [_split_sections(s)] *)
Fixpoint sections_of (s : string) (ms : list mobj) (files : dict string)
  : dict string :=
  match ms with
  | [] => files
  | m :: rest =>
      let fname := strip (group1 s m) in
      let start := m_end m in
      let stop := match rest with
                  | next :: _ => m_start next
                  | [] => String.length s
                  end in
      sections_of s rest (dict_set files fname (strip (slice start stop s)))
  end.

Definition _split_sections (s : string) : dict string :=
  if String.eqb s EmptyString then []
  else
    let s1 := sub_empty _CODE_FENCE s in
    match finditer _FILE_SPLIT_PATTERN s1 with
    | (_ :: _) as matches => sections_of s1 matches []
    | [] =>
        match split schema_mention s1 with
        | p0 :: p1 :: _ => [("handler.lua", strip p0); ("schema.lua", strip p1)]
        | _ => [("handler.lua", strip s1)]
        end
    end.

(** The text after the last dot, in lower case. *)
Fixpoint after_last_dot (s : string) (cur : string) : string :=
  match s with
  | EmptyString => cur
  | String c s' =>
      if Ascii.eqb c "." then after_last_dot s' EmptyString
      else after_last_dot s' (cur ++ String c EmptyString)
  end.

Fixpoint contains_dot (s : string) : bool :=
  match s with
  | EmptyString => false
  | String c s' => (Ascii.eqb c "." || contains_dot s')%bool
  end.

Definition infer_lang (filename lang : string) : string :=
  let ext := if contains_dot filename
             then "." ++ lower (after_last_dot filename EmptyString)
             else EmptyString in
  if (negb (String.eqb lang EmptyString) && negb (String.eqb lang "unknown"))%bool
  then lang
  else match dict_get _LANG_BY_EXT ext with
       | Some l => l
       | None => "unknown"
       end.

Definition fallback_spec (filename summary : string) : dict value :=
  [("plugin_name", VStr (default_name filename));
   ("summary", VStr summary);
   ("entry_points", VList [VStr "access"; VStr "response"]);
   ("io", VDict [("request", VDict []); ("response", VDict [])]);
   ("flows", VList []);
   ("errors", VList []);
   ("config", VDict []);
   ("logging", VDict [("level", VStr "info")]);
   ("dependencies", VList []);
   ("compat_notes", VList [])].

Definition handler_placeholder : string :=
  "-- handler placeholder" ++ newline
  ++ "local kong = kong" ++ newline
  ++ "local Plugin = { PRIORITY = 1000, VERSION = " ++ dq ++ "1.0.0" ++ dq
  ++ " }" ++ newline
  ++ "function Plugin:access(conf) kong.log.debug(" ++ dq ++ "access phase"
  ++ dq ++ ") end" ++ newline
  ++ "return Plugin".

(** [not files.get(k)] *)
Definition lacks (files : dict string) (k : string) : bool :=
  match dict_get files k with
  | Some v => String.eqb v EmptyString
  | None => true
  end.

Section Builder.

Variable L : pylib.
Variable read_prompt : prompts.
Variable llm : backend.
Variable json_loads : string -> result value.

(** [distill_spec(filename, lang, analysis, code_chunk)], as the [n]-th call
    of the backend. *)
Definition distill_spec (filename lang : string) (analysis : option string)
           (code_chunk : option string) (n : nat) : dict value :=
  let lang1 := infer_lang filename lang in
  let sanitized_code := _sanitize_code_snippet code_chunk _MAX_CODE in
  let trimmed_analysis :=
    take _MAX_ANALYSIS (match analysis with Some a => a | None => EmptyString end) in
  let msgs := _safe_format_messages L (read_prompt "plugin_analysis.yaml")
                [("FILENAME", filename); ("LANG", lang1);
                 ("ANALYSIS", trimmed_analysis); ("CODE", sanitized_code)] in
  match llm n msgs with
  | Raise e =>
      _ensure_spec
        (fallback_spec filename ("LLM invocation failed: " ++ exn_name e))
        filename
  | Ok text =>
      let spec :=
        match _safe_json_loads_with json_loads text with
        | VDict ((_ :: _) as d) => d
        | _ => fallback_spec filename "Behavior extracted from Apigee callout"
        end in
      _ensure_spec spec filename
  end.

(** [generate_files(spec)], as the [n]-th call of the backend. *)
Definition generate_files (spec : dict value) (n : nat) : result (dict string) :=
  let spec_json := json_dumps L false (VDict spec) in
  let msgs := _safe_format_messages L (read_prompt "plugin_generation.yaml")
                [("SPEC_JSON", spec_json)] in
  let out := match llm n msgs with
             | Ok text => text
             | Raise _ => EmptyString
             end in
  let files := _split_sections out in
  let files1 := if lacks files "handler.lua"
                then dict_set files "handler.lua" handler_placeholder
                else files in
  files2 <- (if lacks files1 "schema.lua"
             then schema <- _schema_from_spec L spec ;;
                  Ok (dict_set files1 "schema.lua" schema)
             else Ok files1) ;;
  Ok (if lacks files2 "README.md"
      then dict_set files2 "README.md"
             ("# " ++ py_str L (match dict_get spec "plugin_name" with
                                | Some v => v
                                | None => VStr "Custom Plugin"
                                end)
              ++ newline ++ newline ++ "Generated from Apigee callout.")
      else files2).

End Builder.

End PluginBuilder.

(* ================================================================== *)
(** * [backend/services/coverage.py] *)
(* ================================================================== *)

Module Coverage.

Import Re.

(** [_safe_json_loads(text)], with the pattern written in place, over
    [json.loads]. *)
Definition _safe_json_loads_with (json_loads : string -> result value)
           (text : string) : value :=
  match json_loads text with
  | Ok v => v
  | Raise _ =>
      PluginBuilder.first_parsed_with json_loads text
        (PluginBuilder.sort_by_span
           (finditer (seq [Chr "{"; Star any; Chr "}"]) text))
  end.

(** [_safe_json_loads] with the scanner of [Json] for [json.loads]. *)
Definition _safe_json_loads : string -> value :=
  _safe_json_loads_with Json.loads.









Section Compute.

Variable L : pylib.
Variable read_prompt : prompts.
Variable llm : backend.
Variable json_loads : string -> result value.



End Compute.

End Coverage.

(* ================================================================== *)
(** * [backend/services/llm_provider.py] *)
(* ================================================================== *)

Module LlmProvider.

(** The argument of [invoke]: a bare text, a list of dictionaries, or
    nothing. *)
Inductive messages_arg : Type :=
| Bare (s : string)
| Listed (l : list (dict value))
| Missing.

(** A normalized message: the role is whatever value the entry held. *)
Record normalized : Type := Normalized {
  n_role : value;
  n_content : string
}.

(** The loop of [_normalize_messages]. *)
Fixpoint normalize_entries (L : pylib) (ms : list (dict value))
  : list normalized :=
  match ms with
  | [] => []
  | m :: rest =>
      let r := or_else (match dict_get m "role" with
                        | Some v => v
                        | None => VNone
                        end) (VStr "user") in
      match dict_get m "content" with
      | None | Some VNone => normalize_entries L rest
      | Some c => Normalized r (py_str L c) :: normalize_entries L rest
      end
  end.

(** [_normalize_messages(messages)] *)
Definition _normalize_messages (L : pylib) (messages : messages_arg)
  : list normalized :=
  match messages with
  | Bare s => [Normalized (VStr "user") s]
  | Listed _ | Missing =>
      let out := normalize_entries L (match messages with
                                      | Listed l => l
                                      | _ => []
                                      end) in
      match out with
      | [] => [Normalized (VStr "user") "Hello"]
      | _ => out
      end
  end.

End LlmProvider.

(* ================================================================== *)
(** * [backend/services/apigee_analyzer.py] *)
(* ================================================================== *)

Module ApigeeAnalyzer.

(** Decoded text: a list of Unicode code points. *)
Definition text : Type := list N.

Definition _TEXT_EXTS : list string :=
  [".xml"; ".json"; ".properties"; ".yml"; ".yaml"; ".txt"; ".md";
   ".js"; ".py"; ".java"; ".ts"].
Definition _CODE_EXTS : list string := [".js"; ".py"; ".java"; ".ts"].

Definition _MAX_XML_LEN : nat := 2000 * 50.
Definition _MAX_CODE_LEN : nat := 1500 * 50.
Definition _MAX_CFG_LEN : nat := 1500 * 30.

(** ** [raw.decode('utf-8', errors='ignore')]

    CPython's UTF-8 decoder: a well-formed sequence gives its code point; an
    invalid start byte is dropped; a sequence broken at its second, third or
    fourth byte loses the bytes before the break; a sequence cut by the end
    of the data is dropped with the rest of the data. *)
Local Open Scope N_scope.

Definition is_cont (b : N) : bool := (N.leb 128 b && N.leb b 191)%bool.

(** The second byte fits the lead byte: no overlong form, no surrogate, no
    code point above U+10FFFF. *)
Definition second_ok (lead b2 : N) : bool :=
  (is_cont b2
   && negb (N.eqb lead 224 && N.ltb b2 160)
   && negb (N.eqb lead 237 && N.leb 160 b2)
   && negb (N.eqb lead 240 && N.ltb b2 144)
   && negb (N.eqb lead 244 && N.leb 144 b2))%bool.

Fixpoint utf8_ignore (fuel : nat) (s : list N) : text :=
  match fuel with
  | O => []
  | S fuel' =>
      match s with
      | [] => []
      | b1 :: r1 =>
          if N.ltb b1 128 then b1 :: utf8_ignore fuel' r1
          else if (N.ltb b1 194 || N.leb 245 b1)%bool
          then utf8_ignore fuel' r1
          else
            match r1 with
            | [] => []
            | b2 :: r2 =>
                if negb (second_ok b1 b2) then utf8_ignore fuel' r1
                else if N.ltb b1 224
                then (b1 * 64 + b2 - 12416) :: utf8_ignore fuel' r2
                else
                  match r2 with
                  | [] => []
                  | b3 :: r3 =>
                      if negb (is_cont b3) then utf8_ignore fuel' r2
                      else if N.ltb b1 240
                      then (b1 * 4096 + b2 * 64 + b3 - 925824)
                             :: utf8_ignore fuel' r3
                      else
                        match r3 with
                        | [] => []
                        | b4 :: r4 =>
                            if negb (is_cont b4) then utf8_ignore fuel' r3
                            else (b1 * 262144 + b2 * 4096 + b3 * 64 + b4
                                  - 63447168) :: utf8_ignore fuel' r4
                        end
                  end
            end
      end
  end.

Local Close Scope N_scope.

Definition decode (raw : list Byte.byte) : text :=
  utf8_ignore (List.length raw) (map Byte.to_N raw).

(** ** The archive *)

(** A [ZipInfo]: [is_dir()] is an exception on the entries where the
    installed [zipfile] raises (an empty file name, up to Python 3.11). *)
Record zipinfo : Type := ZipInfo {
  filename : string;
  is_dir : result bool
}.

(** An open [ZipFile]: [infolist()] and [read(name)]. *)
Record zipfile : Type := ZipFile {
  infolist : list zipinfo;
  read : string -> result (list Byte.byte)
}.

(** [_safe_read(zf, member)]: every decoding in the list is attempted with
    [errors='ignore'], so the first one, UTF-8, answers. *)
Definition _safe_read (zf : zipfile) (member : zipinfo) : text :=
  match read zf (filename member) with
  | Raise _ => []
  | Ok raw => decode raw
  end.

(** [_trim(s, max_len)] *)
Definition _trim (s : text) (max_len : nat) : text :=
  match s with
  | [] => []
  | _ => firstn max_len s
  end.

(** The dictionary that [extract] returns. *)
Record bundle : Type := Bundle {
  proxy_name : string;
  xml_files : list (string * text);
  code_files : list (string * text);
  config_files : list (string * text)
}.

Definition empty_bundle (zip_path : string) : bundle :=
  Bundle (Pathlib.stem zip_path) [] [] [].

(** The body of the loop for an entry that is not a directory. *)
Definition visit (z : zipfile) (info : zipinfo) (out : bundle) : bundle :=
  let name := filename info in
  let lower_name := lower name in
  if existsb (endswith lower_name) _TEXT_EXTS then
    match _safe_read z info with
    | [] => out
    | txt =>
        if endswith lower_name ".xml"
        then Bundle (proxy_name out)
               (dict_set (xml_files out) name (_trim txt _MAX_XML_LEN))
               (code_files out) (config_files out)
        else if existsb (endswith lower_name) _CODE_EXTS
        then Bundle (proxy_name out) (xml_files out)
               (dict_set (code_files out) name (_trim txt _MAX_CODE_LEN))
               (config_files out)
        else Bundle (proxy_name out) (xml_files out) (code_files out)
               (dict_set (config_files out) name (_trim txt _MAX_CFG_LEN))
    end
  else out.

(** The loop over [z.infolist()]: the bundle so far, and the exception that
    stopped the loop, if any. *)
Fixpoint walk (z : zipfile) (infos : list zipinfo) (out : bundle)
  : bundle * option exn :=
  match infos with
  | [] => (out, None)
  | info :: rest =>
      match is_dir info with
      | Raise e => (out, Some e)
      | Ok true => walk z rest out
      | Ok false => walk z rest (visit z info out)
      end
  end.

(** [BundleExtractor.extract(zip_path)], where [opened] is what
    [zipfile.ZipFile(zip_path, 'r')] gives.  Both exits of the [try]
    statement return [out]. *)
Definition extract (zip_path : string) (opened : result zipfile) : bundle :=
  let out := empty_bundle zip_path in
  match opened with
  | Raise _ => out
  | Ok z => fst (walk z (infolist z) out)
  end.

(** The size of a category: the code points of all its texts. *)
Definition total_size (files : list (string * text)) : nat :=
  fold_right (fun kv acc => List.length (snd kv) + acc) 0 files.

End ApigeeAnalyzer.

(* ================================================================== *)
(** * [backend/server.py]: the extension loop of [api_generate] *)
(* ================================================================== *)

Module Server.

(** [plugins_out]: a dictionary whose keys are the derived names, whatever
    values they are. *)
Definition plugins : Type := list (value * string).

Fixpoint plugins_get (d : plugins) (k : value) : option string :=
  match d with
  | [] => None
  | (k', v) :: d' => if key_eqb k' k then Some v else plugins_get d' k
  end.

(** [plugins_out\[key\] = text] *)
Fixpoint plugins_set (d : plugins) (k : value) (v : string) : plugins :=
  match d with
  | [] => [(k, v)]
  | (k', v') :: d' =>
      if key_eqb k' k then (k', v) :: d' else (k', v') :: plugins_set d' k v
  end.

Definition assign (d : plugins) (k : value) (v : string) : result plugins :=
  if hashable k then Ok (plugins_set d k v) else Raise TypeError.

(** The join of the file sections of one extension. *)
Definition render_files (files : dict string) : string :=
  String.concat EmptyString
    (map (fun kv => "=== FILE: " ++ fst kv ++ " ===" ++ newline
                    ++ snd kv ++ newline) files).

Definition lang_of (fname : string) : string :=
  if endswith fname ".js" then "javascript"
  else if endswith fname ".py" then "python"
  else "unknown".

Section Loop.

Variable L : pylib.
Variable read_prompt : prompts.
Variable llm : backend.
Variable json_loads : string -> result value.
Variable analysis : string.

(** The specification that the [n]-th call of the backend distils for a
    script file. *)
Definition spec_of (fname content : string) (n : nat) : dict value :=
  PluginBuilder.distill_spec L read_prompt llm json_loads fname (lang_of fname)
    (Some analysis) (Some (take (12 * 1000) content)) n.

(** The derived name of a script file:
    [spec.get('plugin_name') or f"custom_{Path(fname).stem}"]. *)
Definition key_of (fname : string) (spec : dict value) : value :=
  or_else (match dict_get spec "plugin_name" with
           | Some v => v
           | None => VNone
           end)
          (VStr ("custom_" ++ Pathlib.stem fname)).

(** One turn of the loop, which calls the backend twice: the derived name
    and the text stored under it. *)
Definition one_plugin (fname content : string) (n : nat)
  : result (value * string) :=
  let spec := spec_of fname content n in
  files <- PluginBuilder.generate_files L read_prompt llm spec (S n) ;;
  Ok (key_of fname spec, render_files files).

(** The loop over [bundle\['code_files'\].items()], from the [n]-th call of
    the backend on. *)
Fixpoint collect (code_files : list (string * string)) (n : nat)
         (plugins_out : plugins) : result plugins :=
  match code_files with
  | [] => Ok plugins_out
  | (fname, content) :: rest =>
      p <- one_plugin fname content n ;;
      out <- assign plugins_out (fst p) (snd p) ;;
      collect rest (S (S n)) out
  end.

End Loop.

End Server.

(* ================================================================== *)
(** * [sharedflows/shared-flow-services.py]: the combiner *)
(* ================================================================== *)

(** The documents are the trees that [yaml.safe_load] builds, with text keys.
    The combiner updates the nodes of the primary document in place; the
    functions below return the updated tree, which is the same thing as long
    as no node of the document is shared between two places, that is, as
    long as the text defines no anchor for an alias to refer to. *)
Module SharedFlow.






Section Combine.

(** [yaml.safe_load] and [yaml.dump(_, default_flow_style=False,
    sort_keys=False)] are not modelled. *)
Variable safe_load : string -> result value.
Variable dump : value -> string.
Variable L : pylib.




End Combine.


End SharedFlow.

(* ================================================================== *)
(** * Example data *)
(* ================================================================== *)

Module Examples.

(** A text between double quotes. *)
Definition quoted (s : string) : string := dq ++ s ++ dq.

(** The object with the keys a and b, as JSON text. *)
Definition small_object : string := "{" ++ quoted "a" ++ ":1}".
Definition large_object : string :=
  "{" ++ quoted "a" ++ ":1," ++ quoted "b" ++ ":2}".

(** Prose around two JSON objects, the larger one last. *)
Definition prose_with_two_objects : string :=
  "intro text " ++ small_object ++ " more " ++ large_object ++ " trailing".


(** A backend that cannot be reached. *)
Definition unreachable : backend := fun _ _ => Raise (OtherError "ConnectionError").

(** A reply with the three files of an extension, tagged by [tag]. *)
Definition three_files (tag : string) : string :=
  "=== FILE: handler.lua ===" ++ newline ++ "-- handler " ++ tag ++ newline
  ++ "=== FILE: schema.lua ===" ++ newline ++ "-- schema " ++ tag ++ newline
  ++ "=== FILE: README.md ===" ++ newline ++ "# " ++ tag.

(** A backend that names every extension [shared] and writes the files of
    the first script on its second call and those of the second script on
    its fourth. *)
Definition two_scripts_backend : backend :=
  fun n _ =>
    if Nat.even n then Ok ("{" ++ quoted "plugin_name" ++ ": " ++ quoted "shared" ++ "}")
    else if Nat.eqb n 1 then Ok (three_files "one")
    else Ok (three_files "two").

(** What [render_files] gives for [three_files tag]. *)
Definition rendered (tag : string) : string :=
  "=== FILE: handler.lua ===" ++ newline ++ "-- handler " ++ tag ++ newline
  ++ "=== FILE: schema.lua ===" ++ newline ++ "-- schema " ++ tag ++ newline
  ++ "=== FILE: README.md ===" ++ newline ++ "# " ++ tag ++ newline.

End Examples.

(* ================================================================== *)
(** * Terms of the statements *)
(* ================================================================== *)

(** ** The block pattern of the JSON recovery *)

Module RecoverySpec.

Import Re Examples.

(** A text with a closing brace somewhere. *)
Fixpoint has_close (s : string) : bool :=
  match s with
  | EmptyString => false
  | String b s' => (Ascii.eqb "}" b || has_close s')%bool
  end.

(** What follows the greedy run in the block pattern: a closing brace, and
    the match is over. *)
Definition close_then_stop (c : cursor) : option cursor := run (Chr "}") c Some.

End RecoverySpec.

(** ** Plugin builder *)

Module PluginBuilderSpec.

Import Re Examples PluginBuilder.






(** A specification whose name, if any, is a text and whose configuration,
    if any and not empty, is a dictionary. *)
Definition well_typed (spec : dict value) : Prop :=
  match dict_get spec "plugin_name" with
  | Some (VStr _) | None => True
  | Some _ => False
  end
  /\ match dict_get spec "config" with
     | Some v => truthy v = false \/ is_dict v = true
     | None => True
     end.

End PluginBuilderSpec.

(** ** Archive analyzer *)

Module ApigeeAnalyzerSpec.

Import ApigeeAnalyzer.

(** A Unicode scalar value: a code point that is not a surrogate. *)
Definition scalar (c : N) : Prop :=
  (c < 55296 \/ (57344 <= c /\ c < 1114112))%N.

(** Decoded text: scalar values only. *)
Definition is_text (t : text) : Prop := Forall scalar t.

Definition all_entries (b : bundle) : list (string * text) :=
  (xml_files b ++ code_files b ++ config_files b)%list.

(** An entry of a bundle that comes from the archive [z]: a decoded member,
    cut at some length, and not empty. *)
Definition stored_from (z : zipfile) (kv : string * text) : Prop :=
  snd kv <> []
  /\ exists raw cap,
       read z (fst kv) = Ok raw /\ snd kv = firstn cap (decode raw).

(** The caps hold for each text of a bundle. *)
Definition capped (b : bundle) : Prop :=
  Forall (fun kv => List.length (snd kv) <= _MAX_XML_LEN) (xml_files b)
  /\ Forall (fun kv => List.length (snd kv) <= _MAX_CODE_LEN) (code_files b)
  /\ Forall (fun kv => List.length (snd kv) <= _MAX_CFG_LEN) (config_files b).

(** An archive with two configuration files, each five bytes longer than the
    cap of its category. *)
Definition two_long_texts : zipfile :=
  ZipFile [ZipInfo "one.txt" (Ok false); ZipInfo "two.txt" (Ok false)]
          (fun _ => Ok (repeat Byte.x61 (_MAX_CFG_LEN + 5))).

End ApigeeAnalyzerSpec.

(** ** Message normalization *)

Module LlmProviderSpec.

Import LlmProvider.

(** An entry is kept when it has a content other than [None]. *)
Definition has_content (m : dict value) : bool :=
  match dict_get m "content" with
  | None | Some VNone => false
  | Some _ => true
  end.

(** The role given to an entry: its own when it is true, else user. *)
Definition role_of (m : dict value) : value :=
  match dict_get m "role" with
  | Some r => if truthy r then r else VStr "user"
  | None => VStr "user"
  end.

(** The content given to a kept entry: [str] of its content. *)
Definition content_of (L : pylib) (m : dict value) : string :=
  match dict_get m "content" with
  | Some c => py_str L c
  | None => EmptyString
  end.

Definition placeholder : normalized := Normalized (VStr "user") "Hello".

End LlmProviderSpec.

(** ** Coverage *)

Module CoverageSpec.

Import Examples Coverage.














End CoverageSpec.

(** ** The extension loop *)

Module ServerSpec.

Import Examples Server.

(** The turns of the loop from the [n]-th call on: the derived name and the
    text of each script file, or the exception of its turn. *)
Fixpoint turns (L : pylib) (rp : prompts) (llm : backend)
         (json_loads : string -> result value) (analysis : string)
         (code_files : list (string * string)) (n : nat)
  : list (result (value * string)) :=
  match code_files with
  | [] => []
  | (fname, content) :: rest =>
      one_plugin L rp llm json_loads analysis fname content n
      :: turns L rp llm json_loads analysis rest (S (S n))
  end.

(** The assignments of the loop, one per turn. *)
Fixpoint store_all (ts : list (result (value * string))) (out : plugins)
  : result plugins :=
  match ts with
  | [] => Ok out
  | t :: rest =>
      p <- t ;;
      out' <- assign out (fst p) (snd p) ;;
      store_all rest out'
  end.

(** Turns that complete and derive text names: the names and the texts. *)
Definition named (ps : list (string * string))
  : list (result (value * string)) :=
  map (fun p => Ok (VStr (fst p), snd p)) ps.

(** The names in the order in which they are first derived. *)
Fixpoint distinct (names : list string) : list string :=
  match names with
  | [] => []
  | k :: rest => k :: filter (fun x => negb (String.eqb x k)) (distinct rest)
  end.

(** The text of the last turn that derives [k], and [dflt] when none does. *)
Fixpoint last_text (k : string) (ps : list (string * string)) (dflt : string)
  : string :=
  match ps with
  | [] => dflt
  | p :: rest => last_text k rest (if String.eqb (fst p) k then snd p else dflt)
  end.

(** One entry per distinct name, in the order of first derivation, which
    holds the text of the last turn that derives the name. *)
Definition last_writes (ps : list (string * string)) : plugins :=
  map (fun k => (VStr k, last_text k ps EmptyString)) (distinct (map fst ps)).

End ServerSpec.

(** ** Combining configurations *)

Module SharedFlowSpec.

Import SharedFlow.









End SharedFlowSpec.

(* ================================================================== *)
(** * JSON recovery *)
(* ================================================================== *)

Module RecoveryFacts.

Import Re Examples RecoverySpec.

(** The two copies of [_safe_json_loads] are one function. *)
Lemma safe_json_loads_copies_agree (text : string) :
  Coverage._safe_json_loads text = PluginBuilder._safe_json_loads text.
Proof.
  unfold Coverage._safe_json_loads, PluginBuilder._safe_json_loads,
    Coverage._safe_json_loads_with, PluginBuilder._safe_json_loads_with.
  destruct (Json.loads text); reflexivity.
Qed.

(** ** The greedy block pattern finds one block at most *)

Lemma close_then_stop_eq pv (b : ascii) s i g :
  close_then_stop (Cursor pv (String b s) i g)
  = if Ascii.eqb "}" b then Some (Cursor (Some b) s (S i) g) else None.
Proof. reflexivity. Qed.

Lemma star_any_eq pv (b : ascii) s i g :
  star any pv (String b s) i g close_then_stop
  = orelse (star any (Some b) s (S i) g close_then_stop)
      (close_then_stop (Cursor pv (String b s) i g)).
Proof. reflexivity. Qed.

Lemma star_without_close (s : string) :
  forall pv i g,
    has_close s = false -> star any pv s i g close_then_stop = None.
Proof.
  induction s as [|b s IH]; intros pv i g H.
  - reflexivity.
  - cbn [has_close] in H. apply Bool.orb_false_iff in H. destruct H as [Hb Hs].
    rewrite star_any_eq, (IH (Some b) (S i) g Hs), close_then_stop_eq, Hb.
    reflexivity.
Qed.

Lemma star_none_without_close (s : string) :
  forall pv i g,
    star any pv s i g close_then_stop = None -> has_close s = false.
Proof.
  induction s as [|b s IH]; intros pv i g H.
  - reflexivity.
  - rewrite star_any_eq in H. cbn [has_close].
    destruct (star any (Some b) s (S i) g close_then_stop) eqn:E;
      [discriminate|].
    rewrite (IH _ _ _ E). rewrite close_then_stop_eq in H. cbn [orelse] in H.
    destruct (Ascii.eqb "}" b); [discriminate | reflexivity].
Qed.

(** The greedy run stops after the last closing brace. *)
Lemma star_stops_after_last_close (s : string) :
  forall pv i g c',
    star any pv s i g close_then_stop = Some c' ->
    has_close (rest c') = false /\ i < pos c'.
Proof.
  induction s as [|b s IH]; intros pv i g c' H.
  - discriminate.
  - rewrite star_any_eq in H.
    destruct (star any (Some b) s (S i) g close_then_stop) eqn:E.
    + cbn [orelse] in H. inversion H; subst.
      destruct (IH _ _ _ _ E). split; [assumption | lia].
    + rewrite close_then_stop_eq in H. cbn [orelse] in H.
      destruct (Ascii.eqb "}" b); [|discriminate].
      inversion H; subst. cbn [rest pos]. split; [|lia].
      eapply star_none_without_close; eauto.
Qed.

Lemma match_block (c : cursor) :
  match_at PluginBuilder._JSON_BLOCKS c
  = match rest c with
    | String b s =>
        if Ascii.eqb "{" b
        then star any (Some b) s (S (pos c)) None close_then_stop
        else None
    | EmptyString => None
    end.
Proof.
  unfold match_at, PluginBuilder._JSON_BLOCKS. simpl. unfold step. simpl.
  destruct (rest c) as [|b s]; reflexivity.
Qed.

Lemma no_block_without_close (fuel : nat) :
  forall c, has_close (rest c) = false ->
            finditer_from fuel PluginBuilder._JSON_BLOCKS c = [].
Proof.
  induction fuel as [|fuel IH]; intros c H; [reflexivity|].
  cbn [finditer_from]. rewrite match_block. unfold step.
  destruct (rest c) as [|b s] eqn:E; [reflexivity|].
  simpl in H. apply Bool.orb_false_iff in H. destruct H as [_ Hs].
  assert (Hnone : (if Ascii.eqb "{" b
                   then star any (Some b) s (S (pos c)) None close_then_stop
                   else None) = None).
  { destruct (Ascii.eqb "{" b); [now apply star_without_close | reflexivity]. }
  rewrite Hnone. now apply IH.
Qed.

(** For every text the pattern finds at most one block. *)
Lemma at_most_one_json_block (text : string) :
  List.length (finditer PluginBuilder._JSON_BLOCKS text) <= 1.
Proof.
  unfold finditer. generalize (S (String.length text)) (start_of text).
  induction n as [|fuel IH]; intros c; [simpl; lia|].
  cbn [finditer_from]. rewrite match_block. unfold step.
  destruct (rest c) as [|b s] eqn:E; [simpl; lia|].
  destruct (Ascii.eqb "{" b); [|apply IH].
  destruct (star any (Some b) s (S (pos c)) None close_then_stop) as [c'|] eqn:Es;
    [|apply IH].
  destruct (star_stops_after_last_close _ _ _ _ _ Es) as [Hc Hp].
  assert (Hlt : Nat.ltb (pos c) (pos c') = true) by (apply Nat.ltb_lt; lia).
  rewrite Hlt. rewrite (no_block_without_close fuel c' Hc). simpl. lia.
Qed.

(** So the fallback tries one candidate at most: the text from the first
    opening brace to the last closing brace. *)
Lemma safe_json_loads_tries_one_block (text : string) :
  PluginBuilder._safe_json_loads text
  = match Json.loads text with
    | Ok v => v
    | Raise _ =>
        match finditer PluginBuilder._JSON_BLOCKS text with
        | m :: _ =>
            match Json.loads (group0 text m) with
            | Ok v => v
            | Raise _ => VDict []
            end
        | [] => VDict []
        end
    end.
Proof.
  unfold PluginBuilder._safe_json_loads, PluginBuilder._safe_json_loads_with.
  destruct (Json.loads text); [reflexivity|].
  pose proof (at_most_one_json_block text) as H.
  destruct (finditer PluginBuilder._JSON_BLOCKS text) as [|m [|m' ms]];
    [reflexivity| |simpl in H; lia].
  unfold PluginBuilder.sort_by_span.
  cbn [fold_right PluginBuilder.insert_by_span PluginBuilder.first_parsed_with].
  reflexivity.
Qed.

(** The pattern finds one block in the example: from the first opening brace
    to the last closing brace. *)
Lemma json_blocks_of_example :
  map (group0 prose_with_two_objects)
      (finditer PluginBuilder._JSON_BLOCKS prose_with_two_objects)
  = [small_object ++ " more " ++ large_object].
Proof. vm_compute. reflexivity. Qed.

(** C1 (code at the failing input): on the specification's example, prose
    around the objects a and a,b, the whole text does not parse, the single
    block that the greedy pattern finds does not parse either, and both
    copies of [_safe_json_loads] return the empty object, although the larger
    object parses on its own; and on every text the pattern finds one block
    at most, so there is never a largest among several to pick. *)
Theorem safe_json_loads_on_prose_with_two_objects :
  Coverage._safe_json_loads prose_with_two_objects = VDict []
  /\ PluginBuilder._safe_json_loads prose_with_two_objects = VDict []
  /\ Json.loads large_object = Ok (VDict [("a", VInt 1); ("b", VInt 2)])
  /\ forall text,
       List.length (finditer PluginBuilder._JSON_BLOCKS text) <= 1.
Proof.
  split; [vm_compute; reflexivity|].
  split; [vm_compute; reflexivity|].
  split; [vm_compute; reflexivity|].
  exact at_most_one_json_block.
Qed.

End RecoveryFacts.

(* ================================================================== *)
(** * Dictionaries *)
(* ================================================================== *)

Module DictFacts.

Lemma dict_get_set_same {V} (d : dict V) (k : string) (v : V) :
  dict_get (dict_set d k v) k = Some v.
Proof.
  induction d as [|[k' v'] d IH]; simpl.
  - now rewrite String.eqb_refl.
  - destruct (String.eqb k' k) eqn:E; simpl; rewrite E; auto.
Qed.

Lemma dict_get_set_other {V} (d : dict V) (k k' : string) (v : V) :
  k <> k' -> dict_get (dict_set d k v) k' = dict_get d k'.
Proof.
  intros Hne. induction d as [|[k0 v0] d IH]; simpl.
  - destruct (String.eqb k k') eqn:E; auto.
    apply String.eqb_eq in E. contradiction.
  - destruct (String.eqb k0 k) eqn:E; simpl.
    + apply String.eqb_eq in E. subst k0.
      destruct (String.eqb k k') eqn:E'; auto.
      apply String.eqb_eq in E'. contradiction.
    + destruct (String.eqb k0 k'); auto.
Qed.


End DictFacts.

(* ================================================================== *)
(** * File sections: the marker and fence patterns on plain texts *)
(* ================================================================== *)

Module SectionsFacts.

Import Re PluginBuilder PluginBuilderSpec.

(** ** Texts *)











(** ** Trimmed texts *)








(** ** The patterns on texts without their signs *)

Section Continuation.
Context {X : Type}.
Variable k : cursor -> option X.






End Continuation.






(** ** Searches that find nothing *)







(** ** The marker lines *)

Section MarkerLine.
Context {X : Type}.
Variable k : cursor -> option X.



End MarkerLine.






(** ** The search between the marker lines *)





(** ** Plain bodies *)







(** ** The two marker lines *)








End SectionsFacts.

(* ================================================================== *)
(** * Template rendering and file sections *)
(* ================================================================== *)

Module PluginBuilderFacts.

Import Re Examples DictFacts PluginBuilder PluginBuilderSpec SectionsFacts.

(** C2 (code at the failing input): [format_messages], the renderer of the
    analysis, configuration, validation, coverage, report and test stages,
    raises [KeyError] on a template that names a variable it is not given,
    and [ValueError] on a lone brace; [_safe_format_messages] of the plugin
    builder leaves the placeholder and the brace as they are. *)
Theorem format_messages_raises_on_unknown_placeholder (L : pylib) :
  Utils.format_messages L [Message "user" "Hello {unknown_var}"] []
  = Raise KeyError
  /\ Utils.format_messages L [Message "user" "local t = {"] []
     = Raise ValueError
  /\ _safe_format_messages L [Message "user" "Hello {unknown_var}"] []
     = [Message "user" "Hello {unknown_var}"]
  /\ _safe_format_messages L [Message "user" "local t = {"] []
     = [Message "user" "local t = {"].
Proof. repeat split; reflexivity. Qed.

(** [_safe_format_messages] keeps the number and the roles of the messages,
    and each content is the formatted one or the template's own. *)
Lemma safe_format_messages_shape (L : pylib) (tmpl : list message)
      (kwargs : dict string) :
  map role (_safe_format_messages L tmpl kwargs) = map role tmpl
  /\ Forall2 (fun m m' =>
                content m' = content m
                \/ Format.format_map (format_extended L) (content m)
                     (_SafeDict kwargs) = Ok (content m'))
             tmpl (_safe_format_messages L tmpl kwargs).
Proof.
  unfold _safe_format_messages. split.
  - rewrite map_map. reflexivity.
  - induction tmpl as [|m tmpl IH]; simpl; constructor; auto.
    simpl. destruct (Format.format_map _ _ _); auto.
Qed.




(** ** The three files of an extension *)

Lemma lacks_set_same (files : dict string) (k v : string) :
  v <> EmptyString -> lacks (dict_set files k v) k = false.
Proof.
  intros Hv. unfold lacks. rewrite dict_get_set_same.
  destruct (String.eqb v EmptyString) eqn:E; auto.
  apply String.eqb_eq in E. contradiction.
Qed.

Lemma lacks_set_other (files : dict string) (k k' v : string) :
  k <> k' -> lacks (dict_set files k v) k' = lacks files k'.
Proof.
  intros Hne. unfold lacks. now rewrite dict_get_set_other.
Qed.

Lemma schema_of_well_typed (L : pylib) (spec : dict value) :
  well_typed spec ->
  exists rest, _schema_from_spec L spec = Ok (String "r" rest).
Proof.
  intros [Hname Hcfg]. unfold _schema_from_spec.
  assert (Hc : exists items,
             match dict_get spec "config" with
             | Some v => or_else v (VDict [])
             | None => VDict []
             end = VDict items).
  { destruct (dict_get spec "config") as [v|]; [|now exists []].
    unfold or_else. destruct Hcfg as [Hf|Hd].
    - rewrite Hf. now exists [].
    - destruct v; try discriminate. destruct (truthy (VDict d)); eauto. }
  destruct Hc as [items ->].
  destruct (dict_get spec "plugin_name") as [[| | | |n| |]|];
    try contradiction; simpl; eauto.
Qed.

(** On a well-typed specification [generate_files] returns the three files,
    none of them empty, whatever the backend does. *)
Lemma generate_files_complete_on_well_typed (L : pylib) (rp : prompts)
      (llm : backend) (spec : dict value) (n : nat) :
  well_typed spec ->
  exists files,
    generate_files L rp llm spec n = Ok files
    /\ lacks files "handler.lua" = false
    /\ lacks files "schema.lua" = false
    /\ lacks files "README.md" = false.
Proof.
  intros Hwt. unfold generate_files.
  set (out := match llm n _ with Ok t => t | Raise _ => EmptyString end).
  set (files := _split_sections out).
  set (files1 := if lacks files "handler.lua" then _ else files).
  assert (H1 : lacks files1 "handler.lua" = false).
  { subst files1. destruct (lacks files "handler.lua") eqn:E; auto.
    apply lacks_set_same. discriminate. }
  destruct (schema_of_well_typed L spec Hwt) as [rest Hs].
  set (files2 := if lacks files1 "schema.lua"
                 then dict_set files1 "schema.lua" (String "r" rest)
                 else files1).
  assert (H2 : lacks files2 "schema.lua" = false
               /\ lacks files2 "handler.lua" = false).
  { subst files2. destruct (lacks files1 "schema.lua") eqn:E; auto. split.
    - apply lacks_set_same. discriminate.
    - rewrite lacks_set_other; [exact H1 | discriminate]. }
  destruct H2 as [H2 H2'].
  exists (if lacks files2 "README.md"
          then dict_set files2 "README.md"
                 ("# " ++ py_str L (match dict_get spec "plugin_name" with
                                    | Some v => v
                                    | None => VStr "Custom Plugin"
                                    end)
                  ++ newline ++ newline ++ "Generated from Apigee callout.")
          else files2).
  split.
  - subst files2. destruct (lacks files1 "schema.lua"); [rewrite Hs|]; reflexivity.
  - destruct (lacks files2 "README.md") eqn:E; auto.
    repeat split.
    + rewrite lacks_set_other; [exact H2' | discriminate].
    + rewrite lacks_set_other; [exact H2 | discriminate].
    + apply lacks_set_same. discriminate.
Qed.

(** C10 (code at the failing input): with the backend unreachable, a
    specification whose configuration is a list makes [generate_files] raise
    [AttributeError], and one whose name is a number makes it raise
    [TypeError]: no map of files is returned. *)
Theorem generate_files_raises_on_untyped_spec (L : pylib) (rp : prompts)
        (n : nat) :
  generate_files L rp unreachable
    [("plugin_name", VStr "rate_guard"); ("config", VList [VStr "timeout"])] n
  = Raise AttributeError
  /\ generate_files L rp unreachable [("plugin_name", VInt 7)] n
     = Raise TypeError.
Proof. split; reflexivity. Qed.

End PluginBuilderFacts.

(* ================================================================== *)
(** * The archive extractor *)
(* ================================================================== *)

Module ApigeeAnalyzerFacts.

Import ApigeeAnalyzer ApigeeAnalyzerSpec.

(** The tests of the decoder, as bounds. *)
Lemma is_cont_bounds (b : N) : is_cont b = true -> (128 <= b <= 191)%N.
Proof.
  unfold is_cont.
  destruct (N.leb_spec 128 b), (N.leb_spec b 191); simpl; intros; lia || easy.
Qed.

Lemma second_ok_bounds (lead b2 : N) :
  second_ok lead b2 = true ->
  (128 <= b2 <= 191
   /\ (lead = 224 -> 160 <= b2) /\ (lead = 237 -> b2 < 160)
   /\ (lead = 240 -> 144 <= b2) /\ (lead = 244 -> b2 < 144))%N.
Proof.
  unfold second_ok. intros H.
  destruct (is_cont b2) eqn:Hc; [|discriminate H].
  apply is_cont_bounds in Hc.
  destruct (N.eqb_spec lead 224), (N.eqb_spec lead 237),
    (N.eqb_spec lead 240), (N.eqb_spec lead 244),
    (N.ltb_spec b2 160), (N.leb_spec 160 b2),
    (N.ltb_spec b2 144), (N.leb_spec 144 b2);
    simpl in H; try discriminate H; lia.
Qed.

Lemma utf8_ignore_is_text (fuel : nat) :
  forall s : list N,
    Forall (fun b => (b < 256)%N) s -> is_text (utf8_ignore fuel s).
Proof.
  unfold is_text.
  induction fuel as [|fuel IH]; intros s Hs; simpl; [constructor|].
  destruct s as [|b1 r1]; [constructor|].
  inversion Hs as [|? ? Hb1 Hr1]; subst.
  destruct (N.ltb_spec b1 128) as [L1|L1].
  { constructor; [left; lia | now apply IH]. }
  destruct (N.ltb_spec b1 194) as [L2|L2]; [now apply IH|].
  destruct (N.leb_spec 245 b1) as [L3|L3]; [now apply IH|]. simpl.
  destruct r1 as [|b2 r2]; [constructor|].
  inversion Hr1 as [|? ? Hb2 Hr2]; subst.
  destruct (second_ok b1 b2) eqn:E2; simpl; [|now apply IH].
  apply second_ok_bounds in E2.
  destruct (N.ltb_spec b1 224) as [L4|L4].
  { constructor; [left; lia | now apply IH]. }
  destruct r2 as [|b3 r3]; [constructor|].
  inversion Hr2 as [|? ? Hb3 Hr3]; subst.
  destruct (is_cont b3) eqn:E3; simpl; [|now apply IH].
  apply is_cont_bounds in E3.
  destruct (N.ltb_spec b1 240) as [L5|L5].
  { constructor; [unfold scalar; lia | now apply IH]. }
  destruct r3 as [|b4 r4]; [constructor|].
  inversion Hr3 as [|? ? Hb4 Hr4]; subst.
  destruct (is_cont b4) eqn:E4; simpl; [|now apply IH].
  apply is_cont_bounds in E4.
  constructor; [unfold scalar; lia | now apply IH].
Qed.

Lemma byte_below_256 (b : Byte.byte) : (Byte.to_N b < 256)%N.
Proof. destruct b; vm_compute; reflexivity. Qed.

(** The decoder gives text on every sequence of bytes. *)
Lemma decode_is_text (raw : list Byte.byte) : is_text (decode raw).
Proof.
  apply utf8_ignore_is_text. apply Forall_forall. intros b Hb.
  apply in_map_iff in Hb. destruct Hb as [x [<- _]]. apply byte_below_256.
Qed.

(** ** What [extract] stores *)

Lemma in_dict_set {V} (d : dict V) (k : string) (v : V) (kv : string * V) :
  In kv (dict_set d k v) -> kv = (k, v) \/ In kv d.
Proof.
  induction d as [|[k' v'] d IH]; simpl.
  - intros [<-|[]]. now left.
  - destruct (String.eqb k' k) eqn:E; simpl.
    + apply String.eqb_eq in E. subst k'. intros [<-|H]; auto.
    + intros [<-|H]; auto. destruct (IH H); auto.
Qed.

Lemma dict_set_in {V} (d : dict V) (k : string) (v : V) :
  In (k, v) (dict_set d k v).
Proof.
  induction d as [|[k' v'] d IH]; simpl; auto.
  destruct (String.eqb k' k) eqn:E; simpl; auto.
  apply String.eqb_eq in E. subst k'. now left.
Qed.

Lemma forall_dict_set {V} (P : string * V -> Prop) (d : dict V) (k : string)
      (v : V) :
  Forall P d -> P (k, v) -> Forall P (dict_set d k v).
Proof.
  intros Hd Hkv. apply Forall_forall. intros kv Hin.
  destruct (in_dict_set _ _ _ _ Hin) as [Heq|Hin'].
  - now rewrite Heq.
  - rewrite Forall_forall in Hd. now apply Hd.
Qed.

Lemma caps_positive :
  _MAX_XML_LEN <> 0 /\ _MAX_CODE_LEN <> 0 /\ _MAX_CFG_LEN <> 0.
Proof. unfold _MAX_XML_LEN, _MAX_CODE_LEN, _MAX_CFG_LEN. lia. Qed.

Lemma trim_is_firstn (s : text) (n : nat) : _trim s n = firstn n s.
Proof. destruct s; [now rewrite firstn_nil | reflexivity]. Qed.

Lemma trim_length (s : text) (n : nat) : List.length (_trim s n) <= n.
Proof. rewrite trim_is_firstn. apply firstn_le_length. Qed.

Lemma trim_nonempty (s : text) (n : nat) :
  s <> [] -> n <> 0 -> _trim s n <> [].
Proof. destruct s, n; simpl; congruence. Qed.

Lemma safe_read_nonempty (z : zipfile) (info : zipinfo) :
  _safe_read z info <> [] ->
  exists raw, read z (filename info) = Ok raw /\ _safe_read z info = decode raw.
Proof.
  unfold _safe_read. destruct (read z (filename info)) as [raw|e]; eauto.
  congruence.
Qed.

(** The three ways [visit] can store a text. *)
Lemma visit_cases (z : zipfile) (info : zipinfo) (out : bundle) :
  (existsb (endswith (lower (filename info))) _TEXT_EXTS = false
   \/ _safe_read z info = [])
  \/ (_safe_read z info <> []
      /\ existsb (endswith (lower (filename info))) _TEXT_EXTS = true
      /\ (visit z info out
          = Bundle (proxy_name out)
              (dict_set (xml_files out) (filename info)
                 (_trim (_safe_read z info) _MAX_XML_LEN))
              (code_files out) (config_files out)
          \/ visit z info out
             = Bundle (proxy_name out) (xml_files out)
                 (dict_set (code_files out) (filename info)
                    (_trim (_safe_read z info) _MAX_CODE_LEN))
                 (config_files out)
          \/ visit z info out
             = Bundle (proxy_name out) (xml_files out) (code_files out)
                 (dict_set (config_files out) (filename info)
                    (_trim (_safe_read z info) _MAX_CFG_LEN)))).
Proof.
  unfold visit.
  destruct (existsb (endswith (lower (filename info))) _TEXT_EXTS); auto.
  destruct (_safe_read z info) as [|c t] eqn:E; auto.
  right. split; [discriminate|]. split; [reflexivity|].
  destruct (endswith (lower (filename info)) ".xml"); auto.
  destruct (existsb (endswith (lower (filename info))) _CODE_EXTS); auto.
Qed.

Lemma visit_skips (z : zipfile) (info : zipinfo) (out : bundle) :
  existsb (endswith (lower (filename info))) _TEXT_EXTS = false
  \/ _safe_read z info = [] ->
  visit z info out = out.
Proof.
  unfold visit. intros [->| ->]; auto.
  destruct (existsb (endswith (lower (filename info))) _TEXT_EXTS); auto.
Qed.

Lemma trimmed_is_stored (z : zipfile) (info : zipinfo) (cap : nat) :
  _safe_read z info <> [] -> cap <> 0 ->
  stored_from z (filename info, _trim (_safe_read z info) cap).
Proof.
  intros Hne Hcap. split; simpl.
  - now apply trim_nonempty.
  - destruct (safe_read_nonempty z info Hne) as [raw [Hr Hd]].
    exists raw, cap. split; [exact Hr|]. now rewrite trim_is_firstn, Hd.
Qed.

Lemma visit_keeps_stored (z : zipfile) (info : zipinfo) (out : bundle) :
  Forall (stored_from z) (all_entries out) ->
  Forall (stored_from z) (all_entries (visit z info out)).
Proof.
  intros H. destruct caps_positive as [Hx [Hc Hg]].
  unfold all_entries in *.
  apply Forall_app in H. destruct H as [H1 H]. apply Forall_app in H.
  destruct H as [H2 H3].
  destruct (visit_cases z info out) as [E|[Hne [_ [E|[E|E]]]]];
    [rewrite (visit_skips z info out E)|rewrite E ..]; simpl;
    repeat (apply Forall_app; split); auto;
    apply forall_dict_set; auto using trimmed_is_stored.
Qed.

Lemma visit_keeps_capped (z : zipfile) (info : zipinfo) (out : bundle) :
  capped out -> capped (visit z info out).
Proof.
  intros [H1 [H2 H3]].
  destruct (visit_cases z info out) as [E|[_ [_ [E|[E|E]]]]];
    [rewrite (visit_skips z info out E)|rewrite E ..]; unfold capped; simpl; repeat split; auto;
    apply forall_dict_set; auto; simpl; apply trim_length.
Qed.

Lemma visit_keeps_name (z : zipfile) (info : zipinfo) (out : bundle) :
  proxy_name (visit z info out) = proxy_name out.
Proof.
  destruct (visit_cases z info out) as [E|[_ [_ [E|[E|E]]]]];
    [rewrite (visit_skips z info out E)|rewrite E ..]; reflexivity.
Qed.

(** An invariant of [visit] holds along the loop. *)
Lemma walk_invariant (P : bundle -> Prop) (z : zipfile) :
  (forall info out, P out -> P (visit z info out)) ->
  forall infos out, P out -> P (fst (walk z infos out)).
Proof.
  intros Hstep. induction infos as [|info rest IH]; intros out Hout; simpl; auto.
  destruct (is_dir info) as [[|]|e]; simpl; auto.
Qed.

(** The entries before the first one that raises are all visited; the loop
    stops there. *)
Lemma walk_stops_at_error (z : zipfile) (pre post : list zipinfo)
      (bad : zipinfo) (e : exn) :
  Forall (fun i => exists d, is_dir i = Ok d) pre ->
  is_dir bad = Raise e ->
  forall out,
    walk z (pre ++ bad :: post) out = (fst (walk z pre out), Some e).
Proof.
  intros Hpre Hbad. induction Hpre as [|info pre [d Hd] _ IH]; intros out; simpl.
  - now rewrite Hbad.
  - rewrite Hd. destruct d; apply IH.
Qed.

(** The loop reads the archive through [read] only. *)
Lemma walk_same_read (z z' : zipfile) :
  read z = read z' ->
  forall infos out, walk z infos out = walk z' infos out.
Proof.
  intros Hr. induction infos as [|info rest IH]; intros out; simpl; auto.
  destruct (is_dir info) as [[|]|e]; auto.
  rewrite <- IH. f_equal. unfold visit, _safe_read. now rewrite Hr.
Qed.

Lemma firstn_is_text (n : nat) (t : text) : is_text t -> is_text (firstn n t).
Proof.
  unfold is_text. revert t. induction n as [|n IH]; intros t Ht; simpl.
  - constructor.
  - destruct Ht; constructor; auto.
Qed.

Lemma total_size_bound (cap : nat) (files : list (string * text)) :
  Forall (fun kv => List.length (snd kv) <= cap) files ->
  total_size files <= cap * List.length files.
Proof.
  induction 1 as [|kv files Hkv _ IH]; simpl; lia.
Qed.

(** C4: for every path and every archive, openable or not, [extract] returns
    a bundle named by the path's stem.  When the archive cannot be opened or
    has no entry the bundle is empty.  When an entry raises, the bundle is
    the one collected from the entries before it.  Every stored value is
    text: scalar values obtained by decoding a member that could be read,
    never raw bytes. *)
Theorem extract_returns_a_bundle (zip_path : string) (opened : result zipfile) :
  proxy_name (extract zip_path opened) = Pathlib.stem zip_path
  /\ (forall e, opened = Raise e ->
      extract zip_path opened = empty_bundle zip_path)
  /\ (forall z, opened = Ok z -> infolist z = [] ->
      extract zip_path opened = empty_bundle zip_path)
  /\ (forall z pre bad post e,
        opened = Ok z -> infolist z = (pre ++ bad :: post)%list ->
        Forall (fun i => exists d, is_dir i = Ok d) pre ->
        is_dir bad = Raise e ->
        extract zip_path opened
        = extract zip_path (Ok (ZipFile pre (read z))))
  /\ (forall name txt,
        In (name, txt) (all_entries (extract zip_path opened)) ->
        is_text txt /\ txt <> []
        /\ exists z raw cap,
             opened = Ok z /\ read z name = Ok raw
             /\ txt = firstn cap (decode raw)).
Proof.
  repeat split.
  - destruct opened as [z|e]; simpl; auto.
    apply (walk_invariant (fun b => proxy_name b = Pathlib.stem zip_path));
      auto.
    intros info out <-. apply visit_keeps_name.
  - intros e ->. reflexivity.
  - intros z -> Hnil. simpl. now rewrite Hnil.
  - intros z pre bad post e -> Hl Hpre Hbad. simpl. rewrite Hl.
    rewrite (walk_stops_at_error z pre post bad e Hpre Hbad). simpl.
    now rewrite (walk_same_read z (ZipFile pre (read z))).
  - destruct opened as [z|e]; simpl in H; [|contradiction].
    assert (Hinv : Forall (stored_from z)
                     (all_entries (fst (walk z (infolist z)
                                          (empty_bundle zip_path))))).
    { apply (walk_invariant (fun b => Forall (stored_from z) (all_entries b))).
      - intros info out. apply visit_keeps_stored.
      - constructor. }
    rewrite Forall_forall in Hinv. destruct (Hinv _ H) as [_ [raw [cap [_ Ht0]]]].
    simpl in Ht0. subst txt. apply firstn_is_text, decode_is_text.
  - destruct opened as [z|e]; simpl in H; [|contradiction].
    assert (Hinv : Forall (stored_from z)
                     (all_entries (fst (walk z (infolist z)
                                          (empty_bundle zip_path))))).
    { apply (walk_invariant (fun b => Forall (stored_from z) (all_entries b))).
      - intros info out. apply visit_keeps_stored.
      - constructor. }
    rewrite Forall_forall in Hinv. destruct (Hinv _ H) as [Hne _]. exact Hne.
  - destruct opened as [z|e]; simpl in H; [|contradiction].
    assert (Hinv : Forall (stored_from z)
                     (all_entries (fst (walk z (infolist z)
                                          (empty_bundle zip_path))))).
    { apply (walk_invariant (fun b => Forall (stored_from z) (all_entries b))).
      - intros info out. apply visit_keeps_stored.
      - constructor. }
    rewrite Forall_forall in Hinv.
    destruct (Hinv _ H) as [_ [raw [cap [Hr Ht]]]].
    exists z, raw, cap. auto.
Qed.

(** C7 (the claim as stated fails): two configuration files longer than the
    cap are each cut at the cap and both kept, so the category holds twice
    the cap. *)
Lemma category_total_exceeds_cap :
  keys (config_files (extract "bundle.zip" (Ok two_long_texts)))
  = ["one.txt"; "two.txt"]
  /\ Nat.eqb (total_size (config_files (extract "bundle.zip" (Ok two_long_texts))))
             (2 * _MAX_CFG_LEN) = true
  /\ Nat.ltb _MAX_CFG_LEN
             (total_size (config_files (extract "bundle.zip" (Ok two_long_texts))))
     = true.
Proof. repeat split; vm_compute; reflexivity. Qed.

(** C7 (amended): in the extracted bundle each text is at most as long as
    the cap of its category, so a category holds at most the cap times the
    number of its files; and a member with a text extension whose decoded
    text is not empty is stored whatever its size, cut at the cap. *)
Theorem extract_caps_each_text (zip_path : string) (opened : result zipfile) :
  capped (extract zip_path opened)
  /\ total_size (xml_files (extract zip_path opened))
     <= _MAX_XML_LEN * List.length (xml_files (extract zip_path opened))
  /\ total_size (code_files (extract zip_path opened))
     <= _MAX_CODE_LEN * List.length (code_files (extract zip_path opened))
  /\ total_size (config_files (extract zip_path opened))
     <= _MAX_CFG_LEN * List.length (config_files (extract zip_path opened))
  /\ (forall z info out,
        existsb (endswith (lower (filename info))) _TEXT_EXTS = true ->
        _safe_read z info <> [] ->
        exists cap,
          In cap [_MAX_XML_LEN; _MAX_CODE_LEN; _MAX_CFG_LEN]
          /\ In (filename info, firstn cap (_safe_read z info))
                (all_entries (visit z info out))).
Proof.
  assert (Hc : capped (extract zip_path opened)).
  { destruct opened as [z|e]; simpl.
    - apply (walk_invariant capped); [apply visit_keeps_capped|].
      repeat split; constructor.
    - repeat split; constructor. }
  split; [exact Hc|]. destruct Hc as [H1 [H2 H3]].
  repeat split; auto using total_size_bound.
  intros z info out Hext Hne.
  destruct (visit_cases z info out) as [[E|E]|[_ [_ [E|[E|E]]]]];
    try congruence.
  - exists _MAX_XML_LEN. split; [now left|]. rewrite E.
    unfold all_entries. cbn [xml_files]. apply in_or_app. left.
    rewrite <- trim_is_firstn. apply dict_set_in.
  - exists _MAX_CODE_LEN. split; [now right; left|]. rewrite E.
    unfold all_entries. cbn [code_files]. apply in_or_app. right.
    apply in_or_app. left.
    rewrite <- trim_is_firstn. apply dict_set_in.
  - exists _MAX_CFG_LEN. split; [now right; right; left|]. rewrite E.
    unfold all_entries. cbn [config_files]. apply in_or_app. right.
    apply in_or_app. right.
    rewrite <- trim_is_firstn. apply dict_set_in.
Qed.

End ApigeeAnalyzerFacts.

(* ================================================================== *)
(** * Message normalization *)
(* ================================================================== *)

Module LlmProviderFacts.

Import LlmProvider LlmProviderSpec.

Lemma normalize_entries_filter (L : pylib) (ms : list (dict value)) :
  normalize_entries L ms
  = map (fun m => Normalized (role_of m) (content_of L m))
        (filter has_content ms).
Proof.
  induction ms as [|m ms IH]; [reflexivity|].
  cbn [normalize_entries filter]. unfold has_content at 1.
  destruct (dict_get m "content") as [c|] eqn:Ec; [|exact IH].
  destruct c; try exact IH; cbn [map]; rewrite IH; f_equal;
    unfold role_of, content_of, or_else; rewrite Ec;
    destruct (dict_get m "role") as [r|]; reflexivity.
Qed.

(** C5 (the claim as stated fails): an entry whose content is the empty text
    is kept, with its unknown role, so a normalized message has an empty
    content; and the bare empty text becomes a message with an empty
    content. *)
Lemma normalize_keeps_empty_content_and_unknown_role :
  (forall L : pylib,
     _normalize_messages L
       (Listed [[("role", VStr "tool"); ("content", VStr EmptyString)]])
     = [Normalized (VStr "tool") EmptyString])
  /\ (forall L : pylib,
        _normalize_messages L (Bare EmptyString)
        = [Normalized (VStr "user") EmptyString]).
Proof. split; intros L; reflexivity. Qed.

(** C5 (amended): a bare text becomes exactly one user message with that
    text.  Of a list, the entries whose content is missing or [None] are
    dropped and all others are kept in order, each with [str] of its content
    (an empty text stays empty) and with its own role when that is a true
    value, user when the role is missing, [None] or empty.  When no entry is
    kept, or no list is given, the result is the single user message Hello.
    So the normalized list is never empty. *)
Theorem normalize_messages_shape (L : pylib) :
  (forall s, _normalize_messages L (Bare s) = [Normalized (VStr "user") s])
  /\ (forall ms,
        _normalize_messages L (Listed ms)
        = match filter has_content ms with
          | [] => [placeholder]
          | kept => map (fun m => Normalized (role_of m) (content_of L m)) kept
          end)
  /\ _normalize_messages L Missing = [placeholder]
  /\ (forall arg, _normalize_messages L arg <> [])
  /\ (forall m, dict_get m "role" = None -> role_of m = VStr "user")
  /\ (forall m r, dict_get m "role" = Some r -> truthy r = true ->
                  role_of m = r)
  /\ (forall m s, dict_get m "content" = Some (VStr s) ->
                  has_content m = true /\ content_of L m = s).
Proof.
  repeat split.
  - intros ms. unfold _normalize_messages. rewrite normalize_entries_filter.
    destruct (filter has_content ms); reflexivity.
  - intros arg. destruct arg as [s|ms|]; simpl; try discriminate.
    destruct (normalize_entries L ms); discriminate.
  - intros m H. unfold role_of. now rewrite H.
  - intros m r H Ht. unfold role_of. now rewrite H, Ht.
  - unfold has_content. now rewrite H.
  - unfold content_of. now rewrite H.
Qed.

End LlmProviderFacts.

(* ================================================================== *)
(** * The coverage fallback *)
(* ================================================================== *)

Module CoverageFacts.

Import Examples DictFacts Coverage CoverageSpec.











End CoverageFacts.

(* ================================================================== *)
(** * The extension loop *)
(* ================================================================== *)

Module ServerFacts.

Import Examples Server ServerSpec.

Lemma collect_stores_turns (L : pylib) (rp : prompts) (llm : backend)
      (json_loads : string -> result value) (analysis : string)
      (code_files : list (string * string)) :
  forall n out,
    collect L rp llm json_loads analysis code_files n out
    = store_all (turns L rp llm json_loads analysis code_files n) out.
Proof.
  induction code_files as [|[fname content] rest IH]; intros n out; simpl;
    [reflexivity|].
  destruct (one_plugin L rp llm json_loads analysis fname content n) as [p|e];
    simpl; [|reflexivity].
  destruct (assign out (fst p) (snd p)); simpl; auto.
Qed.

(** Turns with text names all store: the loop is a fold of assignments. *)
Lemma store_all_named (ps : list (string * string)) :
  forall out,
    store_all (named ps) out
    = Ok (fold_left (fun d p => plugins_set d (VStr (fst p)) (snd p)) ps out).
Proof.
  induction ps as [|p ps IH]; intros out; [reflexivity|].
  cbn [named map store_all bind fst snd]. unfold assign. cbn [hashable bind].
  apply IH.
Qed.

Lemma last_text_snoc (x k t : string) (ps : list (string * string)) :
  forall dflt,
    last_text x (ps ++ [(k, t)]) dflt
    = if String.eqb k x then t else last_text x ps dflt.
Proof.
  induction ps as [|p ps IH]; intros dflt; [reflexivity|].
  cbn [app last_text]. apply IH.
Qed.

Lemma existsb_filter_other (k a : string) (ks : list string) :
  String.eqb k a = false ->
  existsb (String.eqb k) (filter (fun x => negb (String.eqb x a)) ks)
  = existsb (String.eqb k) ks.
Proof.
  intros Hne. induction ks as [|x ks IH]; [reflexivity|].
  cbn [filter existsb]. destruct (String.eqb x a) eqn:Exa; cbn [negb existsb].
  - apply String.eqb_eq in Exa. subst x. now rewrite Hne, IH.
  - now rewrite IH.
Qed.

Lemma existsb_distinct (k : string) (ks : list string) :
  existsb (String.eqb k) (distinct ks) = existsb (String.eqb k) ks.
Proof.
  induction ks as [|a ks IH]; [reflexivity|].
  cbn [distinct existsb]. destruct (String.eqb k a) eqn:E; [reflexivity|].
  cbn [orb]. now rewrite existsb_filter_other, IH.
Qed.

Lemma distinct_snoc (k : string) (ks : list string) :
  distinct (ks ++ [k])
  = if existsb (String.eqb k) ks then distinct ks else (distinct ks ++ [k])%list.
Proof.
  induction ks as [|a ks IH]; [reflexivity|].
  cbn [app distinct existsb]. rewrite IH.
  destruct (String.eqb k a) eqn:E; cbn [orb].
  - apply String.eqb_eq in E. subst a.
    destruct (existsb (String.eqb k) ks); [reflexivity|].
    rewrite filter_app. cbn [filter]. rewrite String.eqb_refl. cbn [negb].
    now rewrite app_nil_r.
  - destruct (existsb (String.eqb k) ks); [reflexivity|].
    rewrite filter_app. cbn [filter]. rewrite E. reflexivity.
Qed.

Lemma distinct_NoDup (ks : list string) : NoDup (distinct ks).
Proof.
  induction ks as [|a ks IH]; cbn [distinct]; constructor.
  - intros Hin. apply filter_In in Hin. destruct Hin as [_ H].
    now rewrite String.eqb_refl in H.
  - now apply NoDup_filter.
Qed.

Lemma text_keys_NoDup (ks : list string) : NoDup ks -> NoDup (map VStr ks).
Proof.
  induction 1 as [|a ks Ha _ IH]; cbn [map]; constructor; [|exact IH].
  intros Hin. apply in_map_iff in Hin. destruct Hin as [x [Hx Hi]].
  inversion Hx. now subst x.
Qed.

(** An assignment to a map with one entry per name. *)
Lemma plugins_set_entries (f : string -> string) (k t : string)
      (ks : list string) :
  NoDup ks ->
  plugins_set (map (fun x => (VStr x, f x)) ks) (VStr k) t
  = if existsb (String.eqb k) ks
    then map (fun x => (VStr x, if String.eqb k x then t else f x)) ks
    else (map (fun x => (VStr x, f x)) ks ++ [(VStr k, t)])%list.
Proof.
  induction 1 as [|a ks Ha Hnd IH]; [reflexivity|].
  cbn [map plugins_set key_eqb existsb]. rewrite (String.eqb_sym a k).
  destruct (String.eqb k a) eqn:E; cbn [orb].
  - apply String.eqb_eq in E. subst a. f_equal.
    apply map_ext_in. intros x Hx.
    destruct (String.eqb k x) eqn:Ex; [|reflexivity].
    apply String.eqb_eq in Ex. now subst x.
  - rewrite IH. destruct (existsb (String.eqb k) ks); reflexivity.
Qed.

(** The fold of assignments from the empty map. *)
Lemma fold_last_writes (ps : list (string * string)) :
  fold_left (fun d p => plugins_set d (VStr (fst p)) (snd p)) ps []
  = last_writes ps.
Proof.
  induction ps as [|[k t] ps IH] using rev_ind; [reflexivity|].
  rewrite fold_left_app. cbn [fold_left fst snd]. rewrite IH.
  unfold last_writes. rewrite map_app. cbn [map fst].
  rewrite plugins_set_entries by apply distinct_NoDup.
  rewrite distinct_snoc, existsb_distinct.
  destruct (existsb (String.eqb k) (map fst ps)) eqn:Ek.
  - apply map_ext. intros x. now rewrite last_text_snoc.
  - rewrite map_app. cbn [map]. rewrite last_text_snoc, String.eqb_refl.
    f_equal. apply map_ext_in. intros x Hx. rewrite last_text_snoc.
    destruct (String.eqb k x) eqn:Ex; [|reflexivity].
    apply String.eqb_eq in Ex. subst x.
    assert (Hin : existsb (String.eqb k) (distinct (map fst ps)) = true).
    { apply existsb_exists. exists k. split; [exact Hx | apply String.eqb_refl]. }
    rewrite existsb_distinct, Ek in Hin. discriminate.
Qed.

Lemma last_text_without (k : string) (ps : list (string * string)) :
  (forall p, In p ps -> fst p <> k) ->
  forall dflt, last_text k ps dflt = dflt.
Proof.
  induction ps as [|p ps IH]; intros Hno dflt; [reflexivity|].
  cbn [last_text]. destruct (String.eqb (fst p) k) eqn:E.
  - apply String.eqb_eq in E. exfalso. apply (Hno p); [now left | exact E].
  - apply IH. intros q Hq. apply Hno. now right.
Qed.

Lemma last_text_after (k t : string) (pre post : list (string * string)) :
  (forall p, In p post -> fst p <> k) ->
  forall dflt, last_text k (pre ++ (k, t) :: post) dflt = t.
Proof.
  intros Hno. induction pre as [|p pre IH]; intros dflt.
  - cbn [app last_text fst snd]. rewrite String.eqb_refl.
    now apply last_text_without.
  - cbn [app last_text]. apply IH.
Qed.

(** C8 (the claim as stated fails): two script files whose extensions get the
    same name leave one entry, which holds the files generated for the second
    script; the files generated for the first are gone.  The same happens
    with the backend unreachable, when both names come from the file stem
    util. *)
Lemma collision_drops_first_output :
  (forall (L : pylib) (rp : prompts) (analysis : string),
     one_plugin L rp two_scripts_backend Json.loads analysis "a/one.js" "A" 0
     = Ok (VStr "shared", rendered "one"))
  /\ (forall (L : pylib) (rp : prompts) (analysis : string),
        collect L rp two_scripts_backend Json.loads analysis
          [("a/one.js", "A"); ("b/two.js", "B")] 0 []
        = Ok [(VStr "shared", rendered "two")])
  /\ String.eqb (rendered "one") (rendered "two") = false
  /\ (forall (L : pylib) (rp : prompts) (analysis : string),
        map fst
          (match collect L rp unreachable Json.loads analysis
                   [("a/util.js", "A"); ("b/util.js", "B")] 0 [] with
           | Ok out => out
           | Raise _ => []
           end)
        = [VStr "custom_util"]).
Proof. repeat split; intros; vm_compute; reflexivity. Qed.

(** C8 (amended): the results map is assigned by derived name with a plain
    item assignment.  When every turn of the loop completes and derives a
    text name, the loop returns the map that has exactly one entry per
    distinct derived name, in the order in which the names first appear,
    each holding the text generated by the last script file that derived the
    name: its keys are pairwise distinct, and under the name of a file that
    no later file shares the map holds that file's text and no other, so the
    text of every earlier file with the same name is gone. *)
Theorem collect_last_write_wins
        (L : pylib) (rp : prompts) (llm : backend)
        (json_loads : string -> result value) (analysis : string)
        (code_files : list (string * string)) (n : nat)
        (ps : list (string * string)) :
  turns L rp llm json_loads analysis code_files n = named ps ->
  collect L rp llm json_loads analysis code_files n [] = Ok (last_writes ps)
  /\ map fst (last_writes ps) = map VStr (distinct (map fst ps))
  /\ NoDup (map fst (last_writes ps))
  /\ (forall pre k t post,
        ps = (pre ++ (k, t) :: post)%list ->
        (forall p, In p post -> fst p <> k) ->
        plugins_get (last_writes ps) (VStr k) = Some t
        /\ forall t', In (VStr k, t') (last_writes ps) <-> t' = t).
Proof.
  intros Hturns.
  assert (Hkeys : map fst (last_writes ps) = map VStr (distinct (map fst ps))).
  { unfold last_writes. rewrite map_map. reflexivity. }
  assert (Hin : forall k t', In (VStr k, t') (last_writes ps)
                             <-> (In k (distinct (map fst ps))
                                  /\ t' = last_text k ps EmptyString)).
  { intros k t'. unfold last_writes. rewrite in_map_iff. split.
    - intros [x [Hx Hi]]. inversion Hx. subst. now split.
    - intros [Hi ->]. now exists k. }
  assert (Hdistinct : forall k, In k (map fst ps) -> In k (distinct (map fst ps))).
  { intros k Hk.
    assert (H : existsb (String.eqb k) (distinct (map fst ps)) = true).
    { rewrite existsb_distinct. apply existsb_exists. exists k.
      split; [exact Hk | apply String.eqb_refl]. }
    apply existsb_exists in H. destruct H as [x [Hx E]].
    apply String.eqb_eq in E. now subst x. }
  split; [|split; [exact Hkeys|split]].
  - rewrite collect_stores_turns, Hturns, store_all_named.
    now rewrite fold_last_writes.
  - rewrite Hkeys. apply text_keys_NoDup, distinct_NoDup.
  - intros pre k t post Hps Hlater.
    assert (Hlast : last_text k ps EmptyString = t)
      by (rewrite Hps; now apply last_text_after).
    assert (Hk : In k (distinct (map fst ps))).
    { apply Hdistinct. rewrite Hps, map_app. apply in_or_app. right. now left. }
    split.
    + unfold last_writes. rewrite <- Hlast.
      clear - Hk. induction (distinct (map fst ps)) as [|a ks IH];
        [contradiction|].
      cbn [map plugins_get key_eqb]. destruct (String.eqb a k) eqn:E.
      * apply String.eqb_eq in E. now subst a.
      * destruct Hk as [->|Hk]; [now rewrite String.eqb_refl in E | auto].
    + intros t'. rewrite Hin, Hlast. split; [now intros [_ ->] | now split].
Qed.

Lemma collect_last_write_wins_witness :
  last_writes [("shared", rendered "one"); ("shared", rendered "two")]
  = [(VStr "shared", rendered "two")]
  /\ forall (L : pylib) (rp : prompts) (analysis : string),
       collect L rp two_scripts_backend Json.loads analysis
         [("a/one.js", "A"); ("b/two.js", "B")] 0 []
       = Ok (last_writes [("shared", rendered "one"); ("shared", rendered "two")]).
Proof.
  split; [reflexivity|]. intros L rp analysis.
  apply (collect_last_write_wins L rp two_scripts_backend Json.loads analysis
           [("a/one.js", "A"); ("b/two.js", "B")] 0
           [("shared", rendered "one"); ("shared", rendered "two")]).
  vm_compute. reflexivity.
Defined.

End ServerFacts.

(* ================================================================== *)
(** * The combiner without fragments *)
(* ================================================================== *)

Module SharedFlowFacts.

Import DictFacts SharedFlow SharedFlowSpec.



Lemma mem_is_get {V} (d : dict V) (k : string) :
  dict_mem d k = true <-> exists v, dict_get d k = Some v.
Proof.
  unfold dict_mem. destruct (dict_get d k); split; eauto; try discriminate.
  intros [v H]. discriminate.
Qed.











End SharedFlowFacts.
